(** * quizio-backend: the game views of [ai_quiz/views/games.py]

    A shallow embedding of the three HTTP views that create, start and end a
    game ([CreateGameView], [StartGameView], [EndGameView]) together with the
    part of the Django ORM they go through, followed by the properties of the
    views.

    The views are sequential code over a relational database, so a view is a
    function from a request and a state to an outcome and a new state.  An
    outcome is a value or a raised Python exception; the state a handler
    leaves behind when it raises is kept, as the rows written before an
    exception stay written. *)

From Stdlib Require Import ZArith List String Bool Lia.
Import ListNotations.

Local Open Scope string_scope.
Local Open Scope Z_scope.

(** ** Python values and truthiness *)

(** A JSON value as [request.data] holds it, for the one request key
    ([gameId]) that no serializer of [ai_quiz/serializers.py] declares.
    Numbers are integers. *)
#[warnings="-register-all"]
Inductive pyval : Type :=
| PNone
| PBool (b : bool)
| PInt (z : Z)
| PStr (s : string)
| PList (l : list pyval)
| PDict (d : list (string * pyval)).

(** Python's [bool(x)], as [not x] and [if x] use it. *)
Class Truthy (A : Type) := truthy : A -> bool.

#[global] Instance Truthy_string : Truthy string :=
  fun s => match s with EmptyString => false | String _ _ => true end.

#[global] Instance Truthy_Z : Truthy Z := fun z => negb (z =? 0).

#[global] Instance Truthy_list {A} : Truthy (list A) :=
  fun l => match l with [] => false | _ :: _ => true end.

#[global] Instance Truthy_pyval : Truthy pyval :=
  fun v =>
    match v with
    | PNone => false
    | PBool b => b
    | PInt z => truthy z
    | PStr s => truthy s
    | PList l => truthy l
    | PDict d => truthy d
    end.

(** [None] is falsy; any other object answers for itself. *)
#[global] Instance Truthy_option {A} `{Truthy A} : Truthy (option A) :=
  fun o => match o with None => false | Some a => truthy a end.

(** ** Requests and responses *)

(** One key of the [request.data] dictionary: absent, present with the JSON
    value [null], or present with a value. *)
Inductive field (A : Type) : Type :=
| Absent
| Null
| Present (a : A).
Arguments Absent {A}.
Arguments Null {A}.
Arguments Present {A} a.

(** [request.data.get(key)]: [None] when the key is absent. *)
Definition dict_get {A} (f : field A) : option A :=
  match f with
  | Absent | Null => None
  | Present a => Some a
  end.

(** [request.data.get(key, default)]: the default only replaces an absent
    key, a [null] that was sent stays [None]. *)
Definition dict_get_default {A} (f : field A) (default : A) : option A :=
  match f with
  | Absent => Some default
  | Null => None
  | Present a => Some a
  end.

(** The request body.  [roomCode], [topic], [subtopics], [n] and [difficulty]
    have the types [CreateGameRequestSerializer] declares for them. *)
Record Data : Type := {
  req_roomCode : field string;
  req_topic : field string;
  req_subtopics : field (list string);
  req_n : field Z;
  req_difficulty : field string;
  req_gameId : field pyval
}.

(** A request that passed [IsAuthenticated]: the primary key of
    [request.user] and the body. *)
Record Request : Type := {
  user : Z;
  data : Data
}.

Definition HTTP_200_OK : Z := 200.
Definition HTTP_201_CREATED : Z := 201.
Definition HTTP_400_BAD_REQUEST : Z := 400.
Definition HTTP_403_FORBIDDEN : Z := 403.
Definition HTTP_404_NOT_FOUND : Z := 404.

(** The three shapes of dictionary the views answer with. *)
Inductive Body : Type :=
| ErrorBody (error : string)
| GameIdBody (gameId : Z)
| StatusBody (status : string).

Record Response : Type := {
  body : Body;
  status : Z
}.

(** ** The models the views read and write

    [ai_quiz/models.py] is outside the code modelled here.  A model has the
    columns the views name; keys are the auto-incremented integers Django
    gives a model by default. *)

Record Room : Type := {
  room_id : Z;
  room_code : string;
  room_status : string;
  room_host : Z
}.

(** A row behind [room.participants]. *)
Record Participant : Type := {
  participant_id : Z;
  participant_room : Z;
  participant_status : string
}.

Record Game : Type := {
  game_id : Z;
  game_room : Z;
  game_status : string
}.

Record Topic : Type := {
  topic_id : Z;
  topic_name : string;
  topic_subtopics : list string
}.

Record Question : Type := {
  question_id : Z;
  question_game : Z;
  question_subtopic : string;
  question_question : string;
  question_correct_answer : string;
  question_options : list string;
  question_topic : Z
}.

Record DB : Type := {
  rooms : list Room;
  participants : list Participant;
  games : list Game;
  topics : list Topic;
  questions : list Question
}.

(** One question of the object [generate_questions] returns. *)
Record GeneratedQuestion : Type := {
  gen_subtopic : string;
  gen_question : string;
  gen_answer : string;
  gen_options : list string
}.

(** ** Exceptions, outcomes and the handler monad *)

Inductive exn : Type :=
| DoesNotExist (model : string)
| MultipleObjectsReturned (model : string)
| ValueError (msg : string)
| AttributeError (msg : string)
| OtherError (msg : string).

Inductive result (A : Type) : Type :=
| Return (a : A)
| Raise (e : exn).
Arguments Return {A} a.
Arguments Raise {A} e.

(** A call the views make to [ai_quiz/ai.py] or to a method of
    [ai_quiz/models.py], recorded in the order it is made. *)
Inductive Call : Type :=
| Call_generate_subtopics (topic : string)
| Call_generate_questions (topic : string) (subtopics : list string)
    (n : option Z) (difficulty : option string)
| Call_get_waiting_game (room : Z)
| Call_create_leaderboard (game : Z)
| Call_end_game (room : Z).

(** The state a view runs in: the database and the calls made so far. *)
Record State : Type := {
  db : DB;
  calls : list Call
}.

Definition M (A : Type) : Type := State -> result A * State.

Definition ret {A} (a : A) : M A := fun s => (Return a, s).

Definition raise {A} (e : exn) : M A := fun s => (Raise e, s).

Definition bind {A B} (m : M A) (k : A -> M B) : M B :=
  fun s =>
    match m s with
    | (Return a, s') => k a s'
    | (Raise e, s') => (Raise e, s')
    end.

Declare Scope py_scope.
Delimit Scope py_scope with py.
Notation "x <- m ;; k" := (bind m (fun x => k))
  (at level 61, m at next level, right associativity) : py_scope.
Notation "m ;;; k" := (bind m (fun _ => k))
  (at level 61, right associativity) : py_scope.
Local Open Scope py_scope.

(** [try: body except ...: handler].  The handler table answers [None] for an
    exception no [except] clause names, which then propagates. *)
Definition try_except {A} (body : M A) (handler : exn -> option (M A)) : M A :=
  fun s =>
    match body s with
    | (Return a, s') => (Return a, s')
    | (Raise e, s') =>
        match handler e with
        | Some h => h s'
        | None => (Raise e, s')
        end
    end.

(** [except Model.DoesNotExist: h]. *)
Definition except_DoesNotExist {A} (model : string) (h : M A) (e : exn) : option (M A) :=
  match e with
  | DoesNotExist m => if String.eqb m model then Some h else None
  | _ => None
  end.

(** [except ValueError as e: h e], with [str(e)] handed to the handler. *)
Definition except_ValueError {A} (h : string -> M A) (e : exn) : option (M A) :=
  match e with
  | ValueError msg => Some (h msg)
  | _ => None
  end.

Definition get_db : M DB := fun s => (Return (db s), s).

Definition put_db (d : DB) : M unit :=
  fun s => (Return tt, {| db := d; calls := calls s |}).

(** Records a call in the log. *)
Definition log (c : Call) : M unit :=
  fun s => (Return tt, {| db := db s; calls := calls s ++ [c] |}).

(** Runs a model method, which works on the database alone. *)
Definition on_db {A} (f : DB -> result A * DB) : M A :=
  fun s =>
    let '(r, d) := f (db s) in
    (r, {| db := d; calls := calls s |}).

(** Hands back the outcome of an external service that keeps no state here. *)
Definition of_result {A} (r : result A) : M A := fun s => (r, s).

(** ** The ORM operations the views use *)

(** [Model.objects.get(...)] over the rows of a table: the one row that
    matches, [DoesNotExist] when none does, [MultipleObjectsReturned] when
    several do. *)
Definition objects_get {A} (model : string) (matches : A -> bool) (rows : list A) : result A :=
  match filter matches rows with
  | [] => Raise (DoesNotExist model)
  | [row] => Return row
  | _ :: _ :: _ => Raise (MultipleObjectsReturned model)
  end.

(** The key the database gives a new row: above every key of the table. *)
Definition next_id (ids : list Z) : Z := 1 + fold_right Z.max 0 ids.

(** [instance.save()] for an instance that has a key: the row with that key
    is rewritten, and inserted when the table has none. *)
Definition save_row {A} (key : A -> Z) (row : A) (rows : list A) : list A :=
  if existsb (fun r => key r =? key row) rows
  then map (fun r => if key r =? key row then row else r) rows
  else rows ++ [row].

Definition set_games (g : list Game) (d : DB) : DB :=
  {| rooms := rooms d; participants := participants d; games := g;
     topics := topics d; questions := questions d |}.

Definition set_topics (t : list Topic) (d : DB) : DB :=
  {| rooms := rooms d; participants := participants d; games := games d;
     topics := t; questions := questions d |}.

Definition set_questions (q : list Question) (d : DB) : DB :=
  {| rooms := rooms d; participants := participants d; games := games d;
     topics := topics d; questions := q |}.

(** [Room.objects.get(room_code=room_code)]. *)
Definition Room_objects_get (room_code_ : string) : M Room :=
  d <- get_db ;;
  of_result (objects_get "Room" (fun r => String.eqb (room_code r) room_code_) (rooms d)).

(** [Room.objects.aget(room_code=room_code, status="active")], awaited. *)
Definition Room_objects_aget (room_code_ status_ : string) : M Room :=
  d <- get_db ;;
  of_result
    (objects_get "Room"
       (fun r => String.eqb (room_code r) room_code_ && String.eqb (room_status r) status_)
       (rooms d)).

(** The query behind [Game.objects.aget(room=room, status=status)]: what the
    coroutine does once it is awaited. *)
Definition Game_objects_aget (room : Room) (status_ : string) : M Game :=
  d <- get_db ;;
  of_result
    (objects_get "Game"
       (fun g => (game_room g =? room_id room) && String.eqb (game_status g) status_)
       (games d)).

(** [Game.objects.acreate(room=room, status=status)], awaited. *)
Definition Game_objects_acreate (room : Room) (status_ : string) : M Game :=
  d <- get_db ;;
  let game := {| game_id := next_id (map game_id (games d));
                 game_room := room_id room;
                 game_status := status_ |} in
  put_db (set_games (games d ++ [game]) d) ;;;
  ret game.

(** [game.save()]. *)
Definition Game_save (game : Game) : M unit :=
  d <- get_db ;;
  put_db (set_games (save_row game_id game (games d)) d).

(** [topic.asave()], awaited. *)
Definition Topic_asave (topic : Topic) : M unit :=
  d <- get_db ;;
  put_db (set_topics (save_row topic_id topic (topics d)) d).

(** [Topic.objects.aget_or_create(name=name)], awaited: the topic of that
    name, created with the model's default [subtopics] when there is none.
    The flag of the pair the ORM returns is dropped, as the caller drops it. *)
Definition Topic_objects_aget_or_create (default_subtopics : list string) (name : string) : M Topic :=
  d <- get_db ;;
  try_except
    (of_result (objects_get "Topic" (fun t => String.eqb (topic_name t) name) (topics d)))
    (except_DoesNotExist "Topic"
       (let topic := {| topic_id := next_id (map topic_id (topics d));
                        topic_name := name;
                        topic_subtopics := default_subtopics |} in
        put_db (set_topics (topics d ++ [topic]) d) ;;;
        ret topic)).

(** [Question.objects.abulk_create(objs)], awaited: the instances are
    inserted in order, each taking its key from the database, and returned
    with their keys. *)
Fixpoint Question_objects_abulk_create (objs : list (Z -> Question)) : M (list Question) :=
  match objs with
  | [] => ret []
  | obj :: rest =>
      d <- get_db ;;
      let question := obj (next_id (map question_id (questions d))) in
      put_db (set_questions (questions d ++ [question]) d) ;;;
      saved <- Question_objects_abulk_create rest ;;
      ret (question :: saved)
  end.

(** [[await f(x) for x in xs]]: the awaits run in list order. *)
Fixpoint for_each {A B} (f : A -> M B) (xs : list A) : M (list B) :=
  match xs with
  | [] => ret []
  | x :: rest =>
      y <- f x ;;
      ys <- for_each f rest ;;
      ret (y :: ys)
  end.

(** [room.participants.exclude(status="ready").exists()]. *)
Definition participants_not_ready_exist (room : Room) (d : DB) : bool :=
  existsb
    (fun p => negb (String.eqb (participant_status p) "ready"))
    (filter (fun p => participant_room p =? room_id room) (participants d)).

(** ** What the views call

    The views call into [ai_quiz/ai.py] and [ai_quiz/models.py]; what those
    functions and methods do is a parameter of the views. *)
Record Env : Type := {
  (** [generate_subtopics(topic)]: the [subtopics] of the answer, or the
      exception the call ends with. *)
  generate_subtopics : string -> result (list string);
  (** [generate_questions(topic, subtopics, n, difficulty)]: the [questions]
      of the answer. *)
  generate_questions :
    string -> list string -> option Z -> option string -> result (list GeneratedQuestion);
  (** [list(set(xs))]: Python leaves the order of a set open. *)
  list_set : list string -> list string;
  (** The default of [Topic.subtopics]. *)
  Topic_subtopics_default : list string;
  (** [Room.get_waiting_game], [Game.create_leaderboard], [Room.end_game]. *)
  get_waiting_game : Room -> DB -> result Game * DB;
  create_leaderboard : Game -> DB -> result unit * DB;
  end_game : Room -> DB -> result unit * DB
}.

(** What a Python name of the views may be bound to where a game is
    expected. *)
Inductive pyobj : Type :=
| ObjNone
| ObjGame (game : Game)
| ObjCoroutine (coroutine : M Game).

(** [obj is not None]. *)
Definition is_not_None (obj : pyobj) : bool :=
  match obj with
  | ObjNone => false
  | _ => true
  end.

(** [obj.id]. *)
Definition getattr_id (obj : pyobj) : M Z :=
  match obj with
  | ObjGame game => ret (game_id game)
  | ObjCoroutine _ => raise (AttributeError "'coroutine' object has no attribute 'id'")
  | ObjNone => raise (AttributeError "'NoneType' object has no attribute 'id'")
  end.

(** The value [if not x: return ...] lets through: [x] when it is truthy. *)
Definition if_truthy {A} `{Truthy A} (x : option A) : option A :=
  match x with
  | Some a => if truthy a then Some a else None
  | None => None
  end.

Definition Response_error (msg : string) (code : Z) : Response :=
  {| body := ErrorBody msg; status := code |}.

(** ** [class CreateGameView(AsyncAPIView)] *)
Module CreateGameView.
Section View.
Variable E : Env.

(** Validate the room code and return the room object. *)
Definition validate_room (room_code_ : string) : M (option Room) :=
  try_except
    (room <- Room_objects_aget room_code_ "active" ;;
     ret (Some room))
    (except_DoesNotExist "Room" (ret None)).

(** Validate if a game is already in progress.  The source binds [game] to
    the coroutine [Game.objects.aget(...)] returns and hands it back without
    an [await]: the query is built, not run. *)
Definition validate_game (room : Room) : M pyobj :=
  try_except
    (let game := ObjCoroutine (Game_objects_aget room "in_progress") in
     ret game)
    (except_DoesNotExist "Game" (ret ObjNone)).

(** Get or create a topic object with the given subtopics. *)
Definition _get_or_create_topic (topic : string) (subtopics : list string) : M Topic :=
  topic_ <- Topic_objects_aget_or_create (Topic_subtopics_default E) topic ;;
  let topic_ :=
    {| topic_id := topic_id topic_;
       topic_name := topic_name topic_;
       topic_subtopics := list_set E subtopics ++ list_set E (topic_subtopics topic_) |} in
  Topic_asave topic_ ;;;
  ret topic_.

(** Fetch questions from the AI backend and create question objects. *)
Definition _fetch_and_create_questions (game : Game) (topic : string)
    (subtopics : list string) (n : option Z) (difficulty : option string) : M (list Question) :=
  log (Call_generate_questions topic subtopics n difficulty) ;;;
  questions_ <- of_result (generate_questions E topic subtopics n difficulty) ;;
  objs <- for_each
            (fun question =>
               topic_ <- _get_or_create_topic topic subtopics ;;
               ret (fun id =>
                      {| question_id := id;
                         question_game := game_id game;
                         question_subtopic := gen_subtopic question;
                         question_question := gen_question question;
                         question_correct_answer := gen_answer question;
                         question_options := gen_options question;
                         question_topic := topic_id topic_ |}))
            questions_ ;;
  Question_objects_abulk_create objs.

(** Create a new game object associated with the room. *)
Definition create_game (room : Room) (topic : string) (n : option Z)
    (difficulty : option string) : M Z :=
  game <- Game_objects_acreate room "waiting" ;;
  log (Call_generate_subtopics topic) ;;;
  subtopics <- of_result (generate_subtopics E topic) ;;
  _fetch_and_create_questions game topic subtopics n difficulty ;;;
  ret (game_id game).

Definition validate_user (room : Room) (request : Request) : M bool :=
  ret (user request =? room_host room).

(** The branch of [post] under [if game is not None]. *)
Definition game_in_progress (game : pyobj) : M Response :=
  id <- getattr_id game ;;
  ret {| body := GameIdBody id; status := HTTP_200_OK |}.

Definition post (request : Request) : M Response :=
  let room_code_ := dict_get (req_roomCode (data request)) in
  let topic := dict_get (req_topic (data request)) in
  let subtopics := dict_get (req_subtopics (data request)) in
  let n := dict_get_default (req_n (data request)) 5 in
  let difficulty := dict_get_default (req_difficulty (data request)) "easy" in
  match if_truthy topic, if_truthy subtopics with
  | Some topic, Some _ =>
      match if_truthy room_code_ with
      | None => ret (Response_error "roomCode is required" HTTP_400_BAD_REQUEST)
      | Some room_code_ =>
          (* Check if the room exists *)
          room <- validate_room room_code_ ;;
          match room with
          | None =>
              ret (Response_error
                     ("Room with code " ++ room_code_ ++ " not found or has been closed.")
                     HTTP_404_NOT_FOUND)
          | Some room =>
              (* Check if the requesting user is the host *)
              is_host <- validate_user room request ;;
              if negb is_host
              then ret (Response_error "Only the host can create the game."
                          HTTP_403_FORBIDDEN)
              else
                game <- validate_game room ;;
                (* There is already a game in progress *)
                if is_not_None game
                then game_in_progress game
                else
                  game_id_ <- create_game room topic n difficulty ;;
                  ret {| body := GameIdBody game_id_; status := HTTP_201_CREATED |}
          end
      end
  | _, _ =>
      ret (Response_error
             "`topic` and `subtopics` are required; `n` and `difficulty` are optional."
             HTTP_400_BAD_REQUEST)
  end.

End View.
End CreateGameView.

(** ** [class StartGameView(APIView)] *)
Module StartGameView.
Section View.
Variable E : Env.

(** The body of the [try] block of [post]: the response of its early
    [return], or the game it started. *)
Definition start_waiting_game (room : Room) : M (Response + Game) :=
  d <- get_db ;;
  (* We need to check if all players are ready before starting the game *)
  if participants_not_ready_exist room d
  then ret (inl (Response_error "All participants must be ready to start the game."
                   HTTP_400_BAD_REQUEST))
  else
    log (Call_get_waiting_game (room_id room)) ;;;
    game <- on_db (get_waiting_game E room) ;;
    log (Call_create_leaderboard (game_id game)) ;;;
    on_db (create_leaderboard E game) ;;;
    let game := {| game_id := game_id game;
                   game_room := game_room game;
                   game_status := "in_progress" |} in
    Game_save game ;;;
    ret (inr game).

(** Start the game. *)
Definition post (request : Request) : M Response :=
  let room_code_ := dict_get (req_roomCode (data request)) in
  match if_truthy room_code_ with
  | None => ret (Response_error "roomCode is required" HTTP_400_BAD_REQUEST)
  | Some room_code_ =>
      (* Check if the room exists *)
      found <- try_except
                 (room <- Room_objects_get room_code_ ;; ret (inr room))
                 (except_DoesNotExist "Room"
                    (ret (inl (Response_error "Room not found." HTTP_404_NOT_FOUND)))) ;;
      match found with
      | inl response => ret response
      | inr room =>
          (* Check if the requesting user is the host *)
          if negb (room_host room =? user request)
          then ret (Response_error "Only the host can start the game." HTTP_403_FORBIDDEN)
          else
            started <- try_except
                         (start_waiting_game room)
                         (except_ValueError
                            (fun e => ret (inl (Response_error e HTTP_400_BAD_REQUEST)))) ;;
            match started with
            | inl response => ret response
            | inr game => ret {| body := GameIdBody (game_id game); status := HTTP_200_OK |}
            end
      end
  end.

End View.
End StartGameView.

(** ** [class EndGameView(APIView)] *)
Module EndGameView.
Section View.
Variable E : Env.

(** End the game. *)
Definition post (request : Request) : M Response :=
  let room_code_ := dict_get (req_roomCode (data request)) in
  let game_id_ := dict_get (req_gameId (data request)) in
  match if_truthy room_code_, if_truthy game_id_ with
  | Some room_code_, Some _ =>
      (* Check if the room exists *)
      found <- try_except
                 (room <- Room_objects_get room_code_ ;; ret (inr room))
                 (except_DoesNotExist "Room"
                    (ret (inl (Response_error "Room not found." HTTP_404_NOT_FOUND)))) ;;
      match found with
      | inl response => ret response
      | inr room =>
          (* Check if the requesting user is the host *)
          if negb (room_host room =? user request)
          then ret (Response_error "Only the host can end the game." HTTP_403_FORBIDDEN)
          else
            (* End the game (e.g., setting a game state, etc.) *)
            ended <- try_except
                       (log (Call_end_game (room_id room)) ;;;
                        on_db (end_game E room) ;;;
                        ret None)
                       (except_ValueError
                          (fun e => ret (Some (Response_error e HTTP_400_BAD_REQUEST)))) ;;
            match ended with
            | Some response => ret response
            | None => ret {| body := StatusBody "game_ended"; status := HTTP_200_OK |}
            end
      end
  | _, _ => ret (Response_error "roomCode and gameId required" HTTP_400_BAD_REQUEST)
  end.

End View.
End EndGameView.

(** ** Requests that differ in one key *)

Definition with_subtopics (subtopics : field (list string)) (request : Request) : Request :=
  {| user := user request;
     data := {| req_roomCode := req_roomCode (data request);
                req_topic := req_topic (data request);
                req_subtopics := subtopics;
                req_n := req_n (data request);
                req_difficulty := req_difficulty (data request);
                req_gameId := req_gameId (data request) |} |}.

Definition with_gameId (gameId : field pyval) (request : Request) : Request :=
  {| user := user request;
     data := {| req_roomCode := req_roomCode (data request);
                req_topic := req_topic (data request);
                req_subtopics := req_subtopics (data request);
                req_n := req_n (data request);
                req_difficulty := req_difficulty (data request);
                req_gameId := gameId |} |}.

(** ** A sample deployment

    One concrete choice of the AI service and of the model methods, and a
    small database, on which the views are run in the examples below. *)
Module Sample.

(** Keeps the first occurrence of every element. *)
Definition dedup (xs : list string) : list string := nodup string_dec xs.

Definition first_game (room : Room) (status_ : string) (d : DB) : option Game :=
  find (fun g => (game_room g =? room_id room) && String.eqb (game_status g) status_) (games d).

Definition env : Env :=
  {| generate_subtopics := fun _ => Return ["algebra"; "geometry"];
     generate_questions := fun _ subtopics _ _ =>
       Return
         (map (fun s => {| gen_subtopic := s;
                           gen_question := "Which statement about " ++ s ++ " is true?";
                           gen_answer := "A";
                           gen_options := ["A"; "B"; "C"; "D"] |})
            subtopics);
     list_set := dedup;
     Topic_subtopics_default := [];
     get_waiting_game := fun room d =>
       match first_game room "waiting" d with
       | Some g => (Return g, d)
       | None => (Raise (ValueError "No waiting game found."), d)
       end;
     create_leaderboard := fun _ d => (Return tt, d);
     end_game := fun room d =>
       match first_game room "in_progress" d with
       | Some g =>
           (Return tt,
            set_games
              (save_row game_id
                 {| game_id := game_id g; game_room := game_room g; game_status := "ended" |}
                 (games d))
              d)
       | None => (Raise (ValueError "No game in progress."), d)
       end |}.

Definition host : Z := 10.
Definition guest : Z := 11.

Definition open_room : Room :=
  {| room_id := 1; room_code := "ABCD"; room_status := "active"; room_host := host |}.

Definition closed_room : Room :=
  {| room_id := 2; room_code := "WXYZ"; room_status := "closed"; room_host := host |}.

Definition running_game : Game :=
  {| game_id := 7; game_room := 1; game_status := "in_progress" |}.

Definition waiting_game : Game :=
  {| game_id := 8; game_room := 1; game_status := "waiting" |}.

Definition player (id : Z) (status_ : string) : Participant :=
  {| participant_id := id; participant_room := 1; participant_status := status_ |}.

(** Two rooms of the same host, nobody joined, no game yet. *)
Definition empty_rooms : State :=
  {| db := {| rooms := [open_room; closed_room]; participants := []; games := [];
              topics := []; questions := [] |};
     calls := [] |}.

(** The open room with a round in progress. *)
Definition round_running : State :=
  {| db := {| rooms := [open_room; closed_room];
              participants := [player 1 "ready"; player 2 "ready"];
              games := [running_game]; topics := []; questions := [] |};
     calls := [] |}.

(** The open room with a game waiting and both players ready. *)
Definition all_ready : State :=
  {| db := {| rooms := [open_room; closed_room];
              participants := [player 1 "ready"; player 2 "ready"];
              games := [waiting_game]; topics := []; questions := [] |};
     calls := [] |}.

(** The same with one player who is not ready yet. *)
Definition one_not_ready : State :=
  {| db := {| rooms := [open_room; closed_room];
              participants := [player 1 "ready"; player 2 "joined"];
              games := [waiting_game]; topics := []; questions := [] |};
     calls := [] |}.

Definition body_of (room_code_ : field string) (topic : field string)
    (subtopics : field (list string)) (gameId : field pyval) : Data :=
  {| req_roomCode := room_code_; req_topic := topic; req_subtopics := subtopics;
     req_n := Absent; req_difficulty := Absent; req_gameId := gameId |}.

(** A complete create-game body for the room of the given code. *)
Definition create_body (code : string) : Data :=
  body_of (Present code) (Present "maths") (Present ["fractions"]) Absent.

End Sample.

(** ** Deployments that go wrong

    Variants of the sample deployment: the AI service fails or answers with
    no question, the model methods raise [Game.DoesNotExist], two rooms carry
    one code, a topic is already stored. *)
Module Outage.

(** [generate_subtopics] fails. *)
Definition ai_down : Env :=
  {| generate_subtopics := fun _ => Raise (OtherError "AI backend unavailable");
     generate_questions := generate_questions Sample.env;
     list_set := list_set Sample.env;
     Topic_subtopics_default := Topic_subtopics_default Sample.env;
     get_waiting_game := get_waiting_game Sample.env;
     create_leaderboard := create_leaderboard Sample.env;
     end_game := end_game Sample.env |}.

(** [generate_subtopics] answers, [generate_questions] fails. *)
Definition questions_down : Env :=
  {| generate_subtopics := generate_subtopics Sample.env;
     generate_questions := fun _ _ _ _ => Raise (OtherError "AI backend unavailable");
     list_set := list_set Sample.env;
     Topic_subtopics_default := Topic_subtopics_default Sample.env;
     get_waiting_game := get_waiting_game Sample.env;
     create_leaderboard := create_leaderboard Sample.env;
     end_game := end_game Sample.env |}.

(** [generate_questions] answers with an empty list. *)
Definition no_questions : Env :=
  {| generate_subtopics := generate_subtopics Sample.env;
     generate_questions := fun _ _ _ _ => Return [];
     list_set := list_set Sample.env;
     Topic_subtopics_default := Topic_subtopics_default Sample.env;
     get_waiting_game := get_waiting_game Sample.env;
     create_leaderboard := create_leaderboard Sample.env;
     end_game := end_game Sample.env |}.

(** Model methods that look their game up with [Game.objects.get] and let
    [Game.DoesNotExist] out. *)
Definition strict_models : Env :=
  {| generate_subtopics := generate_subtopics Sample.env;
     generate_questions := generate_questions Sample.env;
     list_set := list_set Sample.env;
     Topic_subtopics_default := Topic_subtopics_default Sample.env;
     get_waiting_game := fun room d =>
       match Sample.first_game room "waiting" d with
       | Some g => (Return g, d)
       | None => (Raise (DoesNotExist "Game"), d)
       end;
     create_leaderboard := create_leaderboard Sample.env;
     end_game := fun room d =>
       match Sample.first_game room "in_progress" d with
       | Some g => end_game Sample.env room d
       | None => (Raise (DoesNotExist "Game"), d)
       end |}.

Definition twin_room : Room :=
  {| room_id := 3; room_code := "ABCD"; room_status := "active"; room_host := Sample.guest |}.

(** Two active rooms under the code ABCD. *)
Definition twin_rooms : State :=
  {| db := {| rooms := [Sample.open_room; twin_room]; participants := []; games := [];
              topics := []; questions := [] |};
     calls := [] |}.

Definition maths : Topic :=
  {| topic_id := 3; topic_name := "maths"; topic_subtopics := ["algebra"; "sets"] |}.

Definition history : Topic :=
  {| topic_id := 4; topic_name := "history"; topic_subtopics := ["rome"] |}.

(** The sample rooms with two topics on record. *)
Definition topics_known : State :=
  {| db := {| rooms := [Sample.open_room; Sample.closed_room]; participants := [];
              games := []; topics := [maths; history]; questions := [] |};
     calls := [] |}.

End Outage.

(** ** Predicates of the statements *)

(** A computation that makes none of the recorded calls. *)
Definition keeps_calls {A} (m : M A) : Prop :=
  forall st, calls (snd (m st)) = calls st.

(** The topics table as [_get_or_create_topic] needs it: distinct keys and at
    most one topic of the name. *)
Definition topics_ok (name : string) (ts : list Topic) : Prop :=
  NoDup (map topic_id ts) /\
  (List.length (filter (fun t => String.eqb (topic_name t) name) ts) <= 1)%nat.

(** [st'] is [st] up to the topics table. *)
Definition only_topics_differ (st st' : State) : Prop :=
  rooms (db st') = rooms (db st) /\
  participants (db st') = participants (db st) /\
  games (db st') = games (db st) /\
  questions (db st') = questions (db st) /\
  calls st' = calls st.

(** The row stored for a generated question of a game. *)
Definition row_of (game : Z) (q : GeneratedQuestion) (row : Question) : Prop :=
  question_game row = game /\
  question_subtopic row = gen_subtopic q /\
  question_question row = gen_question q /\
  question_correct_answer row = gen_answer q /\
  question_options row = gen_options q.

(** * Properties *)

(** ** The handler monad *)

Ltac unfold_monad :=
  unfold bind, ret, raise, try_except, get_db, put_db, log, on_db, of_result in *.

Lemma bind_Return {A B} (m : M A) (k : A -> M B) (st st' : State) (a : A) :
  m st = (Return a, st') -> bind m k st = k a st'.
Proof. intros Hm. unfold bind. rewrite Hm. reflexivity. Qed.

Lemma log_run (c : Call) (st : State) :
  log c st = (Return tt, {| db := db st; calls := calls st ++ [c] |}).
Proof. reflexivity. Qed.

Lemma keeps_calls_ret {A} (a : A) : keeps_calls (ret a).
Proof. intros st. reflexivity. Qed.

Lemma keeps_calls_get_db : keeps_calls get_db.
Proof. intros st. reflexivity. Qed.

Lemma keeps_calls_put_db (d : DB) : keeps_calls (put_db d).
Proof. intros st. reflexivity. Qed.

Lemma keeps_calls_of_result {A} (r : result A) : keeps_calls (of_result r).
Proof. intros st. reflexivity. Qed.

Lemma keeps_calls_bind {A B} (m : M A) (k : A -> M B) :
  keeps_calls m -> (forall a, keeps_calls (k a)) -> keeps_calls (bind m k).
Proof.
  intros Hm Hk st. unfold bind. specialize (Hm st).
  destruct (m st) as [[a|e] st1]; simpl in *.
  - rewrite Hk. exact Hm.
  - exact Hm.
Qed.

Lemma keeps_calls_try_except {A} (body : M A) (handler : exn -> option (M A)) :
  keeps_calls body ->
  (forall e h, handler e = Some h -> keeps_calls h) ->
  keeps_calls (try_except body handler).
Proof.
  intros Hbody Hh st. unfold try_except. specialize (Hbody st).
  destruct (body st) as [[a|e] st1]; simpl in *; [exact Hbody|].
  destruct (handler e) as [h|] eqn:He; simpl; [|exact Hbody].
  rewrite (Hh e h He). exact Hbody.
Qed.

Lemma keeps_calls_except_DoesNotExist {A} (model : string) (h : M A) :
  keeps_calls h ->
  forall e h', except_DoesNotExist model h e = Some h' -> keeps_calls h'.
Proof.
  intros Hh e h'. destruct e; simpl; try discriminate.
  destruct (String.eqb _ _); [|discriminate].
  intros [= <-]. exact Hh.
Qed.

(** Walks down a computation built from the combinators above. *)
Ltac keeps_calls_step :=
  first
    [ apply keeps_calls_ret
    | apply keeps_calls_get_db
    | apply keeps_calls_put_db
    | apply keeps_calls_of_result
    | apply keeps_calls_bind; [|intro]
    | apply keeps_calls_try_except; [|apply keeps_calls_except_DoesNotExist] ].

Lemma keeps_calls_for_each {A B} (f : A -> M B) (xs : list A) :
  (forall x, keeps_calls (f x)) -> keeps_calls (for_each f xs).
Proof.
  intros Hf. induction xs as [|x rest IH]; simpl.
  - apply keeps_calls_ret.
  - apply keeps_calls_bind; [apply Hf | intro y].
    apply keeps_calls_bind; [exact IH | intro ys; apply keeps_calls_ret].
Qed.

(** ** Truthiness of request fields *)

Lemma if_truthy_None {A} `{Truthy A} (x : option A) :
  if_truthy x = None <-> truthy x = false.
Proof.
  destruct x as [b|]; simpl; [|tauto].
  unfold truthy at 2, Truthy_option.
  destruct (truthy b); split; congruence.
Qed.

Lemma truthy_if_truthy {A} `{Truthy A} (x : option A) :
  truthy x = true -> exists a, if_truthy x = Some a.
Proof.
  destruct x as [a|]; [|discriminate].
  unfold truthy at 1, Truthy_option. simpl. intros ->. eauto.
Qed.

(** ** Lookups, keys and saved rows *)

(** The only exceptions of a lookup. *)
Lemma objects_get_cases {A} (model : string) (p : A -> bool) (rows : list A) :
  (filter p rows = [] /\ objects_get model p rows = Raise (DoesNotExist model)) \/
  (exists row, filter p rows = [row] /\ objects_get model p rows = Return row) \/
  ((2 <= List.length (filter p rows))%nat /\
   objects_get model p rows = Raise (MultipleObjectsReturned model)).
Proof.
  unfold objects_get.
  destruct (filter p rows) as [|x [|y l]]; [left | right; left | right; right].
  - auto.
  - exists x. auto.
  - split; [simpl; lia | reflexivity].
Qed.

Lemma objects_get_none {A} (model : string) (p : A -> bool) (rows : list A) :
  (forall row, In row rows -> p row = false) ->
  objects_get model p rows = Raise (DoesNotExist model).
Proof.
  intros Hnone. unfold objects_get.
  replace (filter p rows) with (@nil A); [reflexivity|].
  symmetry. induction rows as [|x l IH]; [reflexivity|].
  simpl. rewrite (Hnone x (or_introl eq_refl)).
  apply IH. intros row Hin. apply Hnone. right. exact Hin.
Qed.

Lemma filter_andb {A} (p q : A -> bool) (rows : list A) :
  filter (fun r => p r && q r) rows = filter q (filter p rows).
Proof.
  induction rows as [|r l IH]; simpl; [reflexivity|].
  destruct (p r); simpl; [destruct (q r)|]; rewrite IH; reflexivity.
Qed.

Lemma next_id_fresh (ids : list Z) (x : Z) : In x ids -> x < next_id ids.
Proof.
  intros Hin. unfold next_id.
  assert (x <= fold_right Z.max 0 ids); [|lia].
  induction ids as [|y l IH]; [destruct Hin|].
  cbn [fold_right]. destruct Hin as [->|Hin]; [|specialize (IH Hin)]; lia.
Qed.

Lemma next_id_not_In (ids : list Z) : ~ In (next_id ids) ids.
Proof. intros Hin. apply next_id_fresh in Hin. lia. Qed.

(** A key identifies a row of a table whose keys are distinct. *)
Lemma key_inj {A} (key : A -> Z) (rows : list A) (x y : A) :
  NoDup (map key rows) -> In x rows -> In y rows -> key x = key y -> x = y.
Proof.
  induction rows as [|r l IH]; simpl; [tauto|].
  intros Hnd. apply NoDup_cons_iff in Hnd as [Hnotin Hnd].
  intros [->|Hx] [->|Hy] Hkey; auto.
  - exfalso. apply Hnotin. rewrite Hkey. apply in_map. exact Hy.
  - exfalso. apply Hnotin. rewrite <- Hkey. apply in_map. exact Hx.
Qed.

Lemma filter_map_length {A} (p : A -> bool) (f : A -> A) (rows : list A) :
  (forall r, In r rows -> p (f r) = p r) ->
  List.length (filter p (map f rows)) = List.length (filter p rows).
Proof.
  induction rows as [|r l IH]; simpl; [reflexivity|].
  intros Hp. rewrite (Hp r (or_introl eq_refl)).
  destruct (p r); simpl; rewrite IH; auto.
Qed.

Lemma map_key_rewrite {A} (key : A -> Z) (row : A) (rows : list A) :
  map key (map (fun r => if key r =? key row then row else r) rows) = map key rows.
Proof.
  rewrite map_map. apply map_ext. intros r.
  destruct (key r =? key row) eqn:Hk; [lia | reflexivity].
Qed.

Lemma save_row_In {A} (key : A -> Z) (row : A) (rows : list A) :
  In row (save_row key row rows).
Proof.
  unfold save_row. destruct (existsb _ rows) eqn:Hex.
  - apply existsb_exists in Hex as (r & Hin & Hkey).
    apply in_map_iff. exists r. rewrite Hkey. auto.
  - apply in_or_app. right. left. reflexivity.
Qed.

Lemma save_row_key {A} (key : A -> Z) (row : A) (rows : list A) (r : A) :
  In r (save_row key row rows) -> key r = key row -> r = row.
Proof.
  unfold save_row. destruct (existsb _ rows) eqn:Hex; intros Hin Hkey.
  - apply in_map_iff in Hin as (r0 & Hr & Hin).
    destruct (key r0 =? key row) eqn:Hk; [auto|].
    subst r0. lia.
  - apply in_app_or in Hin as [Hin|[Heq|[]]]; [|auto].
    assert (existsb (fun r0 => key r0 =? key row) rows = true) as Hc; [|congruence].
    apply existsb_exists. exists r. split; [exact Hin | lia].
Qed.

Lemma save_row_others {A} (key : A -> Z) (row : A) (rows : list A) (r : A) :
  key r <> key row -> (In r (save_row key row rows) <-> In r rows).
Proof.
  intros Hkey. unfold save_row. destruct (existsb _ rows) eqn:Hex.
  - rewrite in_map_iff. split.
    + intros (r0 & Hr & Hin). destruct (key r0 =? key row) eqn:Hk.
      * subst r. contradiction.
      * subst r0. exact Hin.
    + intros Hin. exists r. split; [|exact Hin].
      destruct (key r =? key row) eqn:Hk; [lia | reflexivity].
  - rewrite in_app_iff. split; [|auto].
    intros [Hin|[Heq|[]]]; [exact Hin|]. subst r. contradiction.
Qed.

(** A row that is in the table is rewritten where it stands. *)
Lemma save_row_update {A} (key : A -> Z) (row old : A) (rows : list A) :
  In old rows -> key old = key row ->
  save_row key row rows = map (fun r => if key r =? key row then row else r) rows.
Proof.
  intros Hin Hkey. unfold save_row.
  replace (existsb (fun r => key r =? key row) rows) with true; [reflexivity|].
  symmetry. apply existsb_exists. exists old. split; [exact Hin | lia].
Qed.

(** ** Room lookup *)

Lemma Room_objects_get_state (code : string) (st : State) :
  Room_objects_get code st =
  (objects_get "Room" (fun r => String.eqb (room_code r) code) (rooms (db st)), st).
Proof. reflexivity. Qed.

Lemma Room_objects_aget_state (code status_ : string) (st : State) :
  Room_objects_aget code status_ st =
  (objects_get "Room"
     (fun r => String.eqb (room_code r) code && String.eqb (room_status r) status_)
     (rooms (db st)), st).
Proof. reflexivity. Qed.

(** The [try] around the lookup, when the room is found. *)
Lemma try_room_found (code : string) (st : State) (room : Room) (h : M (Response + Room)) :
  Room_objects_get code st = (Return room, st) ->
  try_except (room <- Room_objects_get code ;; ret (inr room))
    (except_DoesNotExist "Room" h) st = (Return (inr room), st).
Proof.
  intros Hroom. unfold try_except, bind. rewrite Hroom. reflexivity.
Qed.

(** The [try] around the lookup, when no room has the code. *)
Lemma try_room_missing (code : string) (st : State) (h : M (Response + Room)) :
  (forall r, In r (rooms (db st)) -> room_code r <> code) ->
  try_except (room <- Room_objects_get code ;; ret (inr room))
    (except_DoesNotExist "Room" h) st = h st.
Proof.
  intros Hnone. unfold try_except, bind.
  rewrite Room_objects_get_state, objects_get_none; [reflexivity|].
  intros r Hin. apply String.eqb_neq. auto.
Qed.

(** Where one room has the code, [validate_room] finds it when it is active
    and finds no room otherwise. *)
Lemma validate_room_found (code : string) (st : State) (room : Room) :
  Room_objects_get code st = (Return room, st) ->
  CreateGameView.validate_room code st =
  (Return (if String.eqb (room_status room) "active" then Some room else None), st).
Proof.
  rewrite Room_objects_get_state. intros [= Hget].
  unfold CreateGameView.validate_room, try_except, bind.
  rewrite Room_objects_aget_state. unfold objects_get in *.
  rewrite filter_andb.
  destruct (filter (fun r => String.eqb (room_code r) code) (rooms (db st)))
    as [|r [|r' l]]; try discriminate.
  injection Hget as ->. simpl.
  destruct (String.eqb (room_status room) "active"); reflexivity.
Qed.

Lemma validate_room_none (code : string) (st : State) :
  (forall r, In r (rooms (db st)) -> room_code r = code -> room_status r <> "active") ->
  CreateGameView.validate_room code st = (Return None, st).
Proof.
  intros Hnone.
  unfold CreateGameView.validate_room, try_except, bind.
  rewrite Room_objects_aget_state, objects_get_none; [reflexivity|].
  intros r Hin. apply andb_false_iff.
  destruct (String.eqb_spec (room_code r) code) as [Hc|Hc]; [right | left; reflexivity].
  apply String.eqb_neq. apply Hnone; assumption.
Qed.

(** ** [CreateGameView.create_game] *)

Lemma keeps_calls_get_or_create_topic (E : Env) (topic_ : string) (subs : list string) :
  keeps_calls (CreateGameView._get_or_create_topic E topic_ subs).
Proof.
  unfold CreateGameView._get_or_create_topic, Topic_objects_aget_or_create, Topic_asave.
  repeat keeps_calls_step.
Qed.

Lemma keeps_calls_abulk_create (objs : list (Z -> Question)) :
  keeps_calls (Question_objects_abulk_create objs).
Proof.
  induction objs as [|obj rest IH]; simpl.
  - apply keeps_calls_ret.
  - apply keeps_calls_bind; [apply keeps_calls_get_db | intro d].
    apply keeps_calls_bind; [apply keeps_calls_put_db | intros _].
    apply keeps_calls_bind; [exact IH | intro saved; apply keeps_calls_ret].
Qed.

(** [create_game] asks the AI service for the subtopics of the topic and then
    for questions on exactly those subtopics, whatever happens afterwards. *)
Lemma create_game_calls (E : Env) (room : Room) (topic_ : string) (n : option Z)
    (difficulty : option string) (st : State) (subs : list string) :
  generate_subtopics E topic_ = Return subs ->
  calls (snd (CreateGameView.create_game E room topic_ n difficulty st)) =
  (calls st ++ [Call_generate_subtopics topic_;
                Call_generate_questions topic_ subs n difficulty])%list.
Proof.
  intros Hsubs.
  assert (forall g st0,
            calls (snd (CreateGameView._fetch_and_create_questions E g topic_ subs n
                          difficulty st0)) =
            (calls st0 ++ [Call_generate_questions topic_ subs n difficulty])%list) as Hfetch.
  { intros g st0. unfold CreateGameView._fetch_and_create_questions.
    unfold bind at 1, log at 1.
    match goal with
    | |- calls (snd (?m ?s)) = _ => assert (keeps_calls m) as Hk; [|rewrite Hk; reflexivity]
    end.
    apply keeps_calls_bind; [apply keeps_calls_of_result | intros questions_].
    apply keeps_calls_bind; [|intros; apply keeps_calls_abulk_create].
    apply keeps_calls_for_each. intros q.
    apply keeps_calls_bind; [apply keeps_calls_get_or_create_topic | intro; apply keeps_calls_ret]. }
  unfold CreateGameView.create_game, Game_objects_acreate.
  unfold_monad. simpl. rewrite Hsubs.
  match goal with
  | |- calls (snd (match ?f with _ => _ end)) = _ =>
      pose proof (Hfetch _ _ : calls (snd f) = _) as Hm; destruct f as [[a|e] s']
  end; simpl in *; rewrite Hm, <- app_assoc; reflexivity.
Qed.

(** A run of [create_game] leaves its mark, the call to [generate_subtopics]
    it records: it never ends in the state it started in. *)
Lemma create_game_changes_state (E : Env) (room : Room) (topic_ : string) (n : option Z)
    (difficulty : option string) (st : State) :
  snd (CreateGameView.create_game E room topic_ n difficulty st) <> st.
Proof.
  intros Heq.
  assert (List.length (calls (snd (CreateGameView.create_game E room topic_ n difficulty st))) =
          List.length (calls st)) as Hlen by (rewrite Heq; reflexivity).
  destruct (generate_subtopics E topic_) as [subs|e] eqn:Hsubs.
  - rewrite (create_game_calls E room topic_ n difficulty st subs Hsubs) in Hlen.
    rewrite length_app in Hlen. simpl in Hlen. lia.
  - revert Hlen. unfold CreateGameView.create_game, Game_objects_acreate.
    unfold_monad. simpl. rewrite Hsubs. simpl. rewrite length_app. simpl. lia.
Qed.

Lemma only_topics_differ_refl (st : State) : only_topics_differ st st.
Proof. repeat split. Qed.

Lemma only_topics_differ_trans (st1 st2 st3 : State) :
  only_topics_differ st1 st2 -> only_topics_differ st2 st3 -> only_topics_differ st1 st3.
Proof.
  intros (A1 & A2 & A3 & A4 & A5) (B1 & B2 & B3 & B4 & B5).
  repeat split; congruence.
Qed.

(** Saving a topic over the row it was read from keeps the table in shape. *)
Lemma topics_ok_rewrite (name : string) (ts : list Topic) (old new : Topic) :
  topics_ok name ts ->
  In old ts ->
  topic_id new = topic_id old ->
  topic_name old = name ->
  topic_name new = name ->
  save_row topic_id new ts =
    map (fun r => if topic_id r =? topic_id new then new else r) ts /\
  topics_ok name (save_row topic_id new ts).
Proof.
  intros [Hnd Hone] Hin Hid Hold Hnew.
  assert (save_row topic_id new ts =
          map (fun r => if topic_id r =? topic_id new then new else r) ts) as Hsave.
  { apply (save_row_update topic_id new old); [exact Hin | congruence]. }
  split; [exact Hsave|]. rewrite Hsave. split.
  - rewrite map_key_rewrite. exact Hnd.
  - rewrite filter_map_length; [exact Hone|].
    intros r Hr. destruct (topic_id r =? topic_id new) eqn:Hk; [|reflexivity].
    assert (r = old) as ->.
    { apply (key_inj topic_id ts); [exact Hnd | exact Hr | exact Hin | lia]. }
    rewrite Hold, Hnew. reflexivity.
Qed.

(** [_get_or_create_topic] returns a topic and touches the topics table
    only, which stays in shape. *)
Lemma get_or_create_topic_ok (E : Env) (topic_ : string) (subs : list string) (st : State) :
  topics_ok topic_ (topics (db st)) ->
  exists t st',
    CreateGameView._get_or_create_topic E topic_ subs st = (Return t, st') /\
    only_topics_differ st st' /\
    topics_ok topic_ (topics (db st')).
Proof.
  intros Hok.
  unfold CreateGameView._get_or_create_topic, Topic_objects_aget_or_create, Topic_asave.
  unfold_monad. simpl.
  destruct (objects_get_cases "Topic"
              (fun t => String.eqb (topic_name t) topic_) (topics (db st)))
    as [[Hnone ->]|[(t & Hone & ->)|[Hmany _]]].
  - (* no topic of the name: one is created, then saved *)
    simpl.
    set (new := {| topic_id := next_id (map topic_id (topics (db st)));
                   topic_name := topic_;
                   topic_subtopics := Topic_subtopics_default E |}).
    set (saved := {| topic_id := topic_id new; topic_name := topic_name new;
                     topic_subtopics :=
                       (list_set E subs ++ list_set E (topic_subtopics new))%list |}).
    assert (topics_ok topic_ (topics (db st) ++ [new])) as Hok'.
    { destruct Hok as [Hnd _]. split.
      - rewrite map_app. simpl. apply NoDup_app; try apply NoDup_cons; auto using NoDup_nil.
        + intros x Hx [<-|[]]. apply (next_id_not_In _ Hx).
      - rewrite filter_app, Hnone. simpl. rewrite String.eqb_refl. simpl. lia. }
    destruct (topics_ok_rewrite topic_ (topics (db st) ++ [new]) new saved Hok')
      as [_ Hsaved]; try reflexivity.
    { apply in_or_app. right. left. reflexivity. }
    eexists. eexists. split; [reflexivity|]. split; [repeat split | exact Hsaved].
  - (* the topic exists: it is saved over itself *)
    simpl.
    assert (In t (topics (db st)) /\ topic_name t = topic_) as [Hin Hname].
    { assert (In t (filter (fun t => String.eqb (topic_name t) topic_) (topics (db st))))
        as Hf by (rewrite Hone; left; reflexivity).
      apply filter_In in Hf as [Hin Hname]. apply String.eqb_eq in Hname. auto. }
    set (saved := {| topic_id := topic_id t; topic_name := topic_name t;
                     topic_subtopics :=
                       (list_set E subs ++ list_set E (topic_subtopics t))%list |}).
    destruct (topics_ok_rewrite topic_ (topics (db st)) t saved Hok Hin)
      as [_ Hsaved]; try reflexivity; try exact Hname.
    eexists. eexists. split; [reflexivity|]. split; [repeat split | exact Hsaved].
  - destruct Hok as [_ Hle]. lia.
Qed.

(** The list comprehension of [_fetch_and_create_questions]: one instance per
    generated question, in order. *)
Lemma question_instances_ok (E : Env) (game : Game) (topic_ : string) (subs : list string)
    (qs : list GeneratedQuestion) (st : State) :
  topics_ok topic_ (topics (db st)) ->
  exists objs st',
    for_each
      (fun question =>
         topic' <- CreateGameView._get_or_create_topic E topic_ subs ;;
         ret (fun id =>
                {| question_id := id;
                   question_game := game_id game;
                   question_subtopic := gen_subtopic question;
                   question_question := gen_question question;
                   question_correct_answer := gen_answer question;
                   question_options := gen_options question;
                   question_topic := topic_id topic' |}))
      qs st = (Return objs, st') /\
    only_topics_differ st st' /\
    Forall2 (fun q obj => forall id, row_of (game_id game) q (obj id)) qs objs.
Proof.
  revert st. induction qs as [|q rest IH]; intros st Hok.
  - exists [], st. split; [reflexivity|]. split; [apply only_topics_differ_refl | constructor].
  - destruct (get_or_create_topic_ok E topic_ subs st Hok) as (t & st1 & Ht & Hframe1 & Hok1).
    destruct (IH st1 Hok1) as (objs & st2 & Hrest & Hframe2 & Hrows).
    cbn [for_each]. unfold bind in Hrest |- *.
    rewrite Ht. unfold ret at 1. rewrite Hrest.
    eexists. exists st2. split; [reflexivity|].
    split; [exact (only_topics_differ_trans _ _ _ Hframe1 Hframe2)|].
    constructor; [|exact Hrows].
    intros id. repeat split.
Qed.

(** [abulk_create] appends one row per instance, in order. *)
Lemma abulk_create_ok (objs : list (Z -> Question)) (st : State) :
  exists rows st',
    Question_objects_abulk_create objs st = (Return rows, st') /\
    questions (db st') = (questions (db st) ++ rows)%list /\
    games (db st') = games (db st) /\
    calls st' = calls st /\
    Forall2 (fun obj row => exists id, row = obj id) objs rows.
Proof.
  revert st. induction objs as [|obj rest IH]; intros st.
  - exists [], st. rewrite app_nil_r. repeat split. constructor.
  - cbn [Question_objects_abulk_create]. unfold bind at 1, get_db at 1.
    unfold bind at 1, put_db at 1.
    match goal with
    | |- context [bind (Question_objects_abulk_create rest) _ ?s] =>
        destruct (IH s) as (rows & st' & Hrest & Hq & Hg & Hc & Hrows);
        rewrite (bind_Return _ _ _ _ _ Hrest)
    end.
    eexists. exists st'. split; [reflexivity|].
    simpl in Hq, Hg, Hc. rewrite Hq, Hg, Hc, <- app_assoc.
    repeat split. constructor; [eexists; reflexivity | exact Hrows].
Qed.

Lemma fetch_and_create_questions_ok (E : Env) (game : Game) (topic_ : string)
    (subs : list string) (n : option Z) (difficulty : option string)
    (qs : list GeneratedQuestion) (st : State) :
  generate_questions E topic_ subs n difficulty = Return qs ->
  topics_ok topic_ (topics (db st)) ->
  exists rows st',
    CreateGameView._fetch_and_create_questions E game topic_ subs n difficulty st =
      (Return rows, st') /\
    questions (db st') = (questions (db st) ++ rows)%list /\
    games (db st') = games (db st) /\
    calls st' = (calls st ++ [Call_generate_questions topic_ subs n difficulty])%list /\
    Forall2 (row_of (game_id game)) qs rows.
Proof.
  intros Hqs Hok.
  unfold CreateGameView._fetch_and_create_questions.
  rewrite (bind_Return _ _ _ _ _ (log_run _ st)).
  unfold bind at 1, of_result at 1. rewrite Hqs.
  match goal with
  | |- context [bind (for_each ?f qs) _ ?s] =>
      destruct (question_instances_ok E game topic_ subs qs s Hok)
        as (objs & st1 & Hobjs & (_ & _ & Hg1 & Hq1 & Hc1) & Hinst)
  end.
  rewrite (bind_Return _ _ _ _ _ Hobjs).
  destruct (abulk_create_ok objs st1) as (rows & st2 & Hbulk & Hq2 & Hg2 & Hc2 & Hrows).
  exists rows, st2. split; [exact Hbulk|].
  simpl in Hg1, Hq1, Hc1.
  split; [congruence|]. split; [congruence|]. split; [congruence|].
  clear - Hinst Hrows. revert rows Hrows.
  induction Hinst as [|q obj qs' objs' Hq _ IH]; intros rows Hrows; inversion Hrows; subst.
  - constructor.
  - constructor; [|apply IH; assumption].
    match goal with H : exists id, _ = obj id |- _ => destruct H as [id ->] end.
    apply Hq.
Qed.

(** C5. When [create_game] runs for a room, the questions stored for the
    new game are exactly those the AI service returned: [generate_questions]
    is called with the topic, the subtopics [generate_subtopics(topic)]
    answered, [n] and [difficulty], and for each question of its answer one
    [Question] row is added, in order, that links to the new game and carries
    the subtopic, text, correct answer and options of the question.  The
    topics table is taken to have distinct keys and at most one topic of the
    name, as [aget_or_create] needs. *)
Theorem create_game_stores_generated_questions (E : Env) (room : Room) (topic_ : string)
    (n : option Z) (difficulty : option string) (st : State)
    (subs : list string) (qs : list GeneratedQuestion) :
  generate_subtopics E topic_ = Return subs ->
  generate_questions E topic_ subs n difficulty = Return qs ->
  topics_ok topic_ (topics (db st)) ->
  let new_id := next_id (map game_id (games (db st))) in
  exists rows st',
    CreateGameView.create_game E room topic_ n difficulty st = (Return new_id, st') /\
    games (db st') =
      (games (db st) ++
       [{| game_id := new_id; game_room := room_id room; game_status := "waiting" |}])%list /\
    calls st' =
      (calls st ++ [Call_generate_subtopics topic_;
                    Call_generate_questions topic_ subs n difficulty])%list /\
    questions (db st') = (questions (db st) ++ rows)%list /\
    Forall2 (row_of new_id) qs rows /\
    ((forall q, In q (questions (db st)) ->
                In (question_game q) (map game_id (games (db st)))) ->
     filter (fun q => question_game q =? new_id) (questions (db st')) = rows).
Proof.
  intros Hsubs Hqs Hok new_id.
  unfold CreateGameView.create_game.
  unfold bind at 1, Game_objects_acreate at 1.
  unfold bind at 1, get_db at 1. unfold bind at 1, put_db at 1. unfold ret at 1.
  cbn [db calls].
  rewrite (bind_Return _ _ _ _ _ (log_run _ _)).
  unfold bind at 1, of_result at 1. rewrite Hsubs.
  set (game := {| game_id := next_id (map game_id (games (db st)));
                  game_room := room_id room; game_status := "waiting" |}).
  match goal with
  | |- context [bind (CreateGameView._fetch_and_create_questions _ _ _ _ _ _) _ ?s] =>
      destruct (fetch_and_create_questions_ok E game topic_ subs n difficulty qs s Hqs)
        as (rows & st' & Hfetch & Hq & Hg & Hc & Hrows); [exact Hok|]
  end.
  rewrite (bind_Return _ _ _ _ _ Hfetch).
  exists rows, st'. cbn [db calls games questions set_games] in Hq, Hg, Hc.
  split; [reflexivity|]. split; [exact Hg|].
  split; [rewrite Hc, <- app_assoc; reflexivity|].
  split; [exact Hq|]. split; [exact Hrows|].
  intros Hfk. rewrite Hq, filter_app.
  assert (filter (fun q => question_game q =? new_id) (questions (db st)) = []) as ->.
  { clear - Hfk. induction (questions (db st)) as [|q l IH]; [reflexivity|].
    simpl. assert (question_game q < new_id) as Hlt.
    { apply next_id_fresh. apply Hfk. left. reflexivity. }
    destruct (question_game q =? new_id) eqn:Hk; [lia|].
    apply IH. intros q' Hin. apply Hfk. right. exact Hin. }
  simpl. clear - Hrows.
  induction Hrows as [|q row qs' rows' Hrow _ IH]; [reflexivity|].
  simpl. destruct Hrow as [-> _]. fold new_id. rewrite Z.eqb_refl, IH. reflexivity.
Qed.

(** A first game for the sample room: two questions come back and are
    stored as rows 1 and 2 of game 1. *)
Lemma create_game_stores_generated_questions_witness :
  exists rows st',
    CreateGameView.create_game Sample.env Sample.open_room "maths" (Some 5) (Some "easy")
      Sample.empty_rooms = (Return 1, st') /\
    questions (db st') = rows /\
    map question_subtopic rows = ["algebra"; "geometry"] /\
    map question_game rows = [1; 1].
Proof.
  destruct (create_game_stores_generated_questions Sample.env Sample.open_room "maths"
              (Some 5) (Some "easy") Sample.empty_rooms
              ["algebra"; "geometry"]
              (map (fun s => {| gen_subtopic := s;
                                gen_question := "Which statement about " ++ s ++ " is true?";
                                gen_answer := "A";
                                gen_options := ["A"; "B"; "C"; "D"] |})
                 ["algebra"; "geometry"])
              eq_refl eq_refl (conj (NoDup_nil Z) (le_S _ _ (le_n 0))))
    as (rows & st' & Hrun & _ & _ & Hq & Hrows & _).
  exists rows, st'. split; [exact Hrun|]. split; [exact Hq|].
  inversion Hrows as [|q1 r1 qs1 rows1 (G1 & S1 & _) Hrows1]; subst.
  inversion Hrows1 as [|q2 r2 qs2 rows2 (G2 & S2 & _) Hrows2]; subst.
  inversion Hrows2; subst.
  simpl. rewrite G1, S1, G2, S2. split; reflexivity.
Defined.

(** ** [CreateGameView.post] *)

(** The coroutine is handed back as it is: nothing is raised, nothing is
    read and the state is left alone. *)
Lemma validate_game_coroutine (room : Room) (st : State) :
  CreateGameView.validate_game room st =
  (Return (ObjCoroutine (Game_objects_aget room "in_progress")), st).
Proof. reflexivity. Qed.

(** Past the host check, [post] is the branch for a game in progress. *)
Lemma post_past_host_check (E : Env) (request : Request) (st : State)
    (topic_ code : string) (subs : list string) (room : Room) :
  if_truthy (dict_get (req_topic (data request))) = Some topic_ ->
  if_truthy (dict_get (req_subtopics (data request))) = Some subs ->
  if_truthy (dict_get (req_roomCode (data request))) = Some code ->
  CreateGameView.validate_room code st = (Return (Some room), st) ->
  user request = room_host room ->
  CreateGameView.post E request st =
  CreateGameView.game_in_progress
    (ObjCoroutine (Game_objects_aget room "in_progress")) st.
Proof.
  intros Htopic Hsubs Hcode Hroom Hhost.
  unfold CreateGameView.post.
  rewrite Htopic, Hsubs, Hcode.
  unfold bind at 1. rewrite Hroom.
  unfold CreateGameView.validate_user.
  rewrite Hhost, Z.eqb_refl.
  reflexivity.
Qed.

(** No path through [CreateGameView.post] answers 201. *)
Lemma post_never_201 (E : Env) (request : Request) (st st' : State) (r : Response) :
  CreateGameView.post E request st = (Return r, st') ->
  status r <> HTTP_201_CREATED.
Proof.
  unfold CreateGameView.post.
  destruct (if_truthy (dict_get (req_topic (data request)))) as [topic_|];
    [destruct (if_truthy (dict_get (req_subtopics (data request)))) as [subs|]|];
    try (unfold ret; intros [= <- <-]; discriminate).
  destruct (if_truthy (dict_get (req_roomCode (data request)))) as [code|];
    try (unfold ret; intros [= <- <-]; discriminate).
  unfold bind at 1.
  destruct (CreateGameView.validate_room code st) as [[[room|]|e] st1];
    try (unfold ret; intros [= <- <-]; discriminate); try discriminate.
  unfold CreateGameView.validate_user, bind at 1, ret at 1.
  destruct (user request =? room_host room); simpl;
    unfold ret; intros [= <- <-]; discriminate.
Qed.

(** [CreateGameView.post] once the fields are there. *)
Lemma create_post_fields_present (E : Env) (request : Request) (st : State)
    (topic_ code : string) (subs : list string) :
  if_truthy (dict_get (req_topic (data request))) = Some topic_ ->
  if_truthy (dict_get (req_subtopics (data request))) = Some subs ->
  if_truthy (dict_get (req_roomCode (data request))) = Some code ->
  forall room_opt,
  CreateGameView.validate_room code st = (Return room_opt, st) ->
  CreateGameView.post E request st =
  match room_opt with
  | None =>
      (Return (Response_error
                 ("Room with code " ++ code ++ " not found or has been closed.")
                 HTTP_404_NOT_FOUND), st)
  | Some room =>
      if user request =? room_host room
      then CreateGameView.game_in_progress
             (ObjCoroutine (Game_objects_aget room "in_progress")) st
      else (Return (Response_error "Only the host can create the game."
                      HTTP_403_FORBIDDEN), st)
  end.
Proof.
  intros Htopic Hsubs Hcode room_opt Hroom.
  unfold CreateGameView.post. rewrite Htopic, Hsubs, Hcode.
  unfold bind at 1. rewrite Hroom.
  destruct room_opt as [room|]; [|reflexivity].
  unfold CreateGameView.validate_user, bind at 1, ret at 1.
  destruct (user request =? room_host room); reflexivity.
Qed.

(** C1. For every room, [validate_game] returns a value that is not [None]:
    the lookup it wraps is built and never awaited, so [Game.DoesNotExist] is
    never raised in it.  Consequently every request that passes the field,
    room and host checks takes the branch for a game already in progress in
    [post].  That branch ends in the state the request started in, which no
    run of [create_game] does: no game row and no question row is written
    and the AI service is not called.  No request at all is answered 201. *)
Theorem validate_game_never_None (E : Env) (request : Request) (st : State)
    (topic_ code : string) (subs : list string) (room : Room) :
  if_truthy (dict_get (req_topic (data request))) = Some topic_ ->
  if_truthy (dict_get (req_subtopics (data request))) = Some subs ->
  if_truthy (dict_get (req_roomCode (data request))) = Some code ->
  CreateGameView.validate_room code st = (Return (Some room), st) ->
  user request = room_host room ->
  (forall room' st', exists game,
      CreateGameView.validate_game room' st' = (Return game, st') /\
      is_not_None game = true) /\
  (exists game,
      CreateGameView.validate_game room st = (Return game, st) /\
      CreateGameView.post E request st = CreateGameView.game_in_progress game st) /\
  CreateGameView.post E request st =
    (Raise (AttributeError "'coroutine' object has no attribute 'id'"), st) /\
  (forall room' topic' n difficulty,
      snd (CreateGameView.create_game E room' topic' n difficulty st) <> st) /\
  (forall request' st' r st'',
      CreateGameView.post E request' st' = (Return r, st'') ->
      status r <> HTTP_201_CREATED).
Proof.
  intros Htopic Hsubs Hcode Hroom Hhost.
  pose proof (post_past_host_check E request st topic_ code subs room
                Htopic Hsubs Hcode Hroom Hhost) as Hpost.
  split; [|split; [|split; [|split]]].
  - intros room' st'. eexists. split; [apply validate_game_coroutine | reflexivity].
  - eexists. split; [apply validate_game_coroutine | exact Hpost].
  - rewrite Hpost. reflexivity.
  - intros room' topic' n difficulty. apply create_game_changes_state.
  - intros request' st' r st''. apply post_never_201.
Qed.

(** The host asks for a first game in the sample room. *)
Lemma validate_game_never_None_witness :
  CreateGameView.post Sample.env
    {| user := Sample.host; data := Sample.create_body "ABCD" |}
    Sample.empty_rooms =
  (Raise (AttributeError "'coroutine' object has no attribute 'id'"), Sample.empty_rooms).
Proof.
  apply (validate_game_never_None Sample.env
           {| user := Sample.host; data := Sample.create_body "ABCD" |}
           Sample.empty_rooms "maths" "ABCD" ["fractions"] Sample.open_room);
    reflexivity.
Defined.

(** C6. With a round in progress in the room, [CreateGameView.post] is meant to
    answer 200 with the key of that game.  Run on the sample room, whose game
    7 is in progress, it creates nothing and raises [AttributeError] instead:
    [game] is the coroutine, which has no [id]. *)
Theorem post_with_round_running_raises :
  Game_objects_aget Sample.open_room "in_progress" Sample.round_running =
    (Return Sample.running_game, Sample.round_running) /\
  CreateGameView.post Sample.env
    {| user := Sample.host; data := Sample.create_body "ABCD" |}
    Sample.round_running =
    (Raise (AttributeError "'coroutine' object has no attribute 'id'"),
     Sample.round_running).
Proof. split; reflexivity. Qed.

(** C9. The value of [subtopics] does not matter beyond its presence: two
    requests to [CreateGameView] that differ only in a non-empty [subtopics]
    list get the same outcome and leave the same state.  The key is tested
    for truthiness alone (a missing or empty list is answered 400), and
    [create_game], which is not handed the list of the request, asks
    [generate_questions] for the subtopics [generate_subtopics(topic)]
    returned. *)
Theorem subtopics_only_presence (E : Env) (request : Request) (st : State)
    (subs1 subs2 : list string) :
  subs1 <> [] ->
  subs2 <> [] ->
  CreateGameView.post E (with_subtopics (Present subs1) request) st =
  CreateGameView.post E (with_subtopics (Present subs2) request) st /\
  (forall subs, truthy (dict_get subs) = false ->
     CreateGameView.post E (with_subtopics subs request) st =
     (Return
        {| body := ErrorBody
             "`topic` and `subtopics` are required; `n` and `difficulty` are optional.";
           status := 400 |}, st)) /\
  (forall room topic_ n difficulty st0 subs,
     generate_subtopics E topic_ = Return subs ->
     calls (snd (CreateGameView.create_game E room topic_ n difficulty st0)) =
     (calls st0 ++ [Call_generate_subtopics topic_;
                    Call_generate_questions topic_ subs n difficulty])%list).
Proof.
  intros H1 H2. split; [|split].
  - unfold CreateGameView.post. simpl.
    destruct subs1 as [|x1 l1]; [contradiction|].
    destruct subs2 as [|x2 l2]; [contradiction|].
    simpl. reflexivity.
  - intros subs Hsubs. apply if_truthy_None in Hsubs.
    unfold CreateGameView.post. simpl. rewrite Hsubs.
    destruct (if_truthy (dict_get (req_topic (data request)))); reflexivity.
  - intros room topic_ n difficulty st0 subs. apply create_game_calls.
Qed.

(** The host of the sample room asks twice, naming different subtopics. *)
Lemma subtopics_only_presence_witness :
  CreateGameView.post Sample.env
    {| user := Sample.host;
       data := Sample.body_of (Present "ABCD") (Present "maths") (Present ["fractions"])
                 Absent |}
    Sample.empty_rooms =
  CreateGameView.post Sample.env
    {| user := Sample.host;
       data := Sample.body_of (Present "ABCD") (Present "maths")
                 (Present ["primes"; "sets"]) Absent |}
    Sample.empty_rooms.
Proof.
  apply (subtopics_only_presence Sample.env
           {| user := Sample.host;
              data := Sample.body_of (Present "ABCD") (Present "maths") Absent Absent |}
           Sample.empty_rooms ["fractions"] ["primes"; "sets"]); discriminate.
Defined.

(** ** [StartGameView.post] *)

Lemma participants_not_ready_exist_true (room : Room) (d : DB) :
  participants_not_ready_exist room d = true <->
  exists p, In p (participants d) /\ participant_room p = room_id room /\
            participant_status p <> "ready".
Proof.
  unfold participants_not_ready_exist. rewrite existsb_exists. split.
  - intros (p & Hin & Hst). apply filter_In in Hin as (Hin & Hroom).
    exists p. repeat split; [exact Hin | lia |].
    apply String.eqb_neq. destruct (String.eqb _ _); [discriminate | reflexivity].
  - intros (p & Hin & Hroom & Hst). exists p. split.
    + apply filter_In. split; [exact Hin | lia].
    + apply String.eqb_neq in Hst. rewrite Hst. reflexivity.
Qed.

Lemma participants_not_ready_exist_false (room : Room) (d : DB) :
  (forall p, In p (participants d) -> participant_room p = room_id room ->
             participant_status p = "ready") ->
  participants_not_ready_exist room d = false.
Proof.
  intros Hall.
  destruct (participants_not_ready_exist room d) eqn:Hex; [|reflexivity].
  apply participants_not_ready_exist_true in Hex as (p & Hin & Hroom & Hst).
  exfalso. apply Hst. apply Hall; assumption.
Qed.

(** [StartGameView.post] once the room is found. *)
Lemma start_post_room_found (E : Env) (request : Request) (st : State)
    (code : string) (room : Room) :
  if_truthy (dict_get (req_roomCode (data request))) = Some code ->
  Room_objects_get code st = (Return room, st) ->
  StartGameView.post E request st =
  if negb (room_host room =? user request)
  then (Return (Response_error "Only the host can start the game." HTTP_403_FORBIDDEN), st)
  else
    match try_except (StartGameView.start_waiting_game E room)
            (except_ValueError
               (fun e => ret (inl (Response_error e HTTP_400_BAD_REQUEST)))) st with
    | (Return (inl response), st') => (Return response, st')
    | (Return (inr game), st') =>
        (Return {| body := GameIdBody (game_id game); status := HTTP_200_OK |}, st')
    | (Raise e, st') => (Raise e, st')
    end.
Proof.
  intros Hcode Hroom.
  unfold StartGameView.post. rewrite Hcode.
  unfold bind at 1. rewrite (try_room_found _ _ _ _ Hroom).
  destruct (negb (room_host room =? user request)); [reflexivity|].
  unfold bind at 1.
  destruct (try_except _ _ st) as [[[response|game]|e] st']; reflexivity.
Qed.

(** The [try] block of [StartGameView.post] answers 400 when it answers
    early. *)
Lemma start_block_early_400 (E : Env) (room : Room) (st st' : State) (response : Response) :
  try_except (StartGameView.start_waiting_game E room)
    (except_ValueError (fun e => ret (inl (Response_error e HTTP_400_BAD_REQUEST)))) st =
    (Return (inl response), st') ->
  status response = HTTP_400_BAD_REQUEST.
Proof.
  unfold StartGameView.start_waiting_game, Game_save. unfold_monad. simpl.
  destruct (participants_not_ready_exist room (db st)); [intros [= <- _]; reflexivity|].
  simpl.
  destruct (get_waiting_game E room (db st)) as [[game|e] d1]; simpl.
  - destruct (create_leaderboard E game d1) as [[[]|e] d2]; simpl; [discriminate|].
    destruct e; simpl; try discriminate. intros [= <- _]. reflexivity.
  - destruct e; simpl; try discriminate. intros [= <- _]. reflexivity.
Qed.

(** Past the room and host checks, with every participant ready,
    [StartGameView.post] is decided by the two model methods. *)
Lemma start_post_past_ready_check (E : Env) (request : Request) (st : State)
    (code : string) (room : Room) :
  if_truthy (dict_get (req_roomCode (data request))) = Some code ->
  Room_objects_get code st = (Return room, st) ->
  room_host room = user request ->
  participants_not_ready_exist room (db st) = false ->
  StartGameView.post E request st =
  let called := (calls st ++ [Call_get_waiting_game (room_id room)])%list in
  match get_waiting_game E room (db st) with
  | (Return game, d1) =>
      let called := (called ++ [Call_create_leaderboard (game_id game)])%list in
      match create_leaderboard E game d1 with
      | (Return _, d2) =>
          (Return {| body := GameIdBody (game_id game); status := HTTP_200_OK |},
           {| db := set_games
                      (save_row game_id
                         {| game_id := game_id game; game_room := game_room game;
                            game_status := "in_progress" |}
                         (games d2)) d2;
              calls := called |})
      | (Raise (ValueError msg), d2) =>
          (Return (Response_error msg HTTP_400_BAD_REQUEST), {| db := d2; calls := called |})
      | (Raise e, d2) => (Raise e, {| db := d2; calls := called |})
      end
  | (Raise (ValueError msg), d1) =>
      (Return (Response_error msg HTTP_400_BAD_REQUEST), {| db := d1; calls := called |})
  | (Raise e, d1) => (Raise e, {| db := d1; calls := called |})
  end.
Proof.
  intros Hcode Hroom Hhost Hready.
  unfold StartGameView.post. rewrite Hcode.
  unfold bind at 1. rewrite (try_room_found _ _ _ _ Hroom).
  rewrite Hhost, Z.eqb_refl. simpl.
  unfold StartGameView.start_waiting_game, Game_save.
  unfold_monad. rewrite Hready. simpl.
  destruct (get_waiting_game E room (db st)) as [[game|e] d1]; [|destruct e; reflexivity].
  simpl.
  destruct (create_leaderboard E game d1) as [[[]|e] d2]; [|destruct e; reflexivity].
  reflexivity.
Qed.

(** C3. Readiness gates the start of a game: when the host of an existing
    room asks to start and some participant of the room has a status other
    than "ready", [StartGameView.post] answers 400 with the error
    'All participants must be ready to start the game.' and leaves the state
    as it found it, so no game changes status. *)
Theorem start_needs_all_ready (E : Env) (request : Request) (st : State)
    (code : string) (room : Room) :
  if_truthy (dict_get (req_roomCode (data request))) = Some code ->
  Room_objects_get code st = (Return room, st) ->
  room_host room = user request ->
  (exists p, In p (participants (db st)) /\ participant_room p = room_id room /\
             participant_status p <> "ready") ->
  StartGameView.post E request st =
  (Return {| body := ErrorBody "All participants must be ready to start the game.";
             status := 400 |}, st).
Proof.
  intros Hcode Hroom Hhost Hnot.
  unfold StartGameView.post. rewrite Hcode.
  unfold bind at 1. rewrite (try_room_found _ _ _ _ Hroom).
  rewrite Hhost, Z.eqb_refl. simpl.
  apply participants_not_ready_exist_true in Hnot.
  unfold StartGameView.start_waiting_game.
  unfold_monad. rewrite Hnot. reflexivity.
Qed.

(** The host starts the sample room while one player has only joined. *)
Lemma start_needs_all_ready_witness :
  StartGameView.post Sample.env
    {| user := Sample.host; data := Sample.create_body "ABCD" |}
    Sample.one_not_ready =
  (Return {| body := ErrorBody "All participants must be ready to start the game.";
             status := 400 |}, Sample.one_not_ready).
Proof.
  apply (start_needs_all_ready Sample.env _ Sample.one_not_ready "ABCD" Sample.open_room).
  - reflexivity.
  - reflexivity.
  - reflexivity.
  - exists (Sample.player 2 "joined"). simpl. repeat split.
    + right. left. reflexivity.
    + discriminate.
Defined.

(** C4. When the host of an existing room whose participants are all ready
    asks to start, [StartGameView.post] obtains the game through
    [room.get_waiting_game()], calls [game.create_leaderboard()], sets the
    status of that game to "in_progress", saves it and answers 200 with the
    key of the game.  In the state the view ends in, the games table holds
    the game with its status replaced, as the only row of that key; rows of
    other keys are untouched, a game that was stored is rewritten in place,
    the row of a game that was "waiting" is gone, and the other tables are
    those [create_leaderboard] left.  If [ValueError] is raised in the
    block, by either method, the answer is 400 with the message of the error
    and nothing is saved: the database is the one the raising call left. *)
Theorem start_game_transition (E : Env) (request : Request) (st : State)
    (code : string) (room : Room) :
  if_truthy (dict_get (req_roomCode (data request))) = Some code ->
  Room_objects_get code st = (Return room, st) ->
  room_host room = user request ->
  (forall p, In p (participants (db st)) -> participant_room p = room_id room ->
             participant_status p = "ready") ->
  (forall game d1 d2,
     get_waiting_game E room (db st) = (Return game, d1) ->
     create_leaderboard E game d1 = (Return tt, d2) ->
     let started := {| game_id := game_id game; game_room := game_room game;
                       game_status := "in_progress" |} in
     exists st',
       StartGameView.post E request st =
         (Return {| body := GameIdBody (game_id game); status := 200 |}, st') /\
       calls st' = (calls st ++ [Call_get_waiting_game (room_id room);
                                 Call_create_leaderboard (game_id game)])%list /\
       games (db st') = save_row game_id started (games d2) /\
       In started (games (db st')) /\
       (forall g, In g (games (db st')) -> game_id g = game_id game -> g = started) /\
       (forall g, game_id g <> game_id game ->
                  (In g (games (db st')) <-> In g (games d2))) /\
       (In game (games d2) ->
        games (db st') =
          map (fun g => if game_id g =? game_id game then started else g) (games d2)) /\
       (game_status game = "waiting" -> ~ In game (games (db st'))) /\
       rooms (db st') = rooms d2 /\
       participants (db st') = participants d2 /\
       topics (db st') = topics d2 /\
       questions (db st') = questions d2) /\
  (forall msg d1,
     get_waiting_game E room (db st) = (Raise (ValueError msg), d1) ->
     StartGameView.post E request st =
       (Return {| body := ErrorBody msg; status := 400 |},
        {| db := d1; calls := calls st ++ [Call_get_waiting_game (room_id room)] |})) /\
  (forall game d1 msg d2,
     get_waiting_game E room (db st) = (Return game, d1) ->
     create_leaderboard E game d1 = (Raise (ValueError msg), d2) ->
     StartGameView.post E request st =
       (Return {| body := ErrorBody msg; status := 400 |},
        {| db := d2;
           calls := calls st ++ [Call_get_waiting_game (room_id room);
                                 Call_create_leaderboard (game_id game)] |})).
Proof.
  intros Hcode Hroom Hhost Hready.
  apply participants_not_ready_exist_false in Hready.
  rewrite (start_post_past_ready_check E request st code room Hcode Hroom Hhost Hready).
  split; [|split].
  - intros game d1 d2 Hget Hboard started.
    rewrite Hget, Hboard. eexists. split; [reflexivity|].
    cbn [db calls games rooms participants topics questions set_games].
    split; [rewrite <- app_assoc; reflexivity|].
    split; [reflexivity|].
    split; [apply save_row_In|].
    split; [intros g Hin Hkey; apply (save_row_key game_id started (games d2)); assumption|].
    split; [intros g Hkey; apply (save_row_others game_id started); exact Hkey|].
    split; [intros Hin; apply (save_row_update game_id started game);
            [exact Hin | reflexivity]|].
    split; [|repeat split].
    intros Hwaiting Hin.
    assert (game = started) as Heq
      by (apply (save_row_key game_id started (games d2)); [exact Hin | reflexivity]).
    rewrite Heq in Hwaiting. discriminate.
  - intros msg d1 ->. reflexivity.
  - intros game d1 msg d2 -> ->. simpl. rewrite <- app_assoc. reflexivity.
Qed.

(** The host starts the sample room once both players are ready: game 8,
    which was waiting, is stored as in progress. *)
Lemma start_game_transition_witness :
  exists st',
    StartGameView.post Sample.env
      {| user := Sample.host; data := Sample.create_body "ABCD" |}
      Sample.all_ready =
      (Return {| body := GameIdBody 8; status := 200 |}, st') /\
    games (db Sample.all_ready) =
      [{| game_id := 8; game_room := 1; game_status := "waiting" |}] /\
    games (db st') = [{| game_id := 8; game_room := 1; game_status := "in_progress" |}] /\
    calls st' = [Call_get_waiting_game 1; Call_create_leaderboard 8].
Proof.
  destruct (proj1 (start_game_transition Sample.env
              {| user := Sample.host; data := Sample.create_body "ABCD" |}
              Sample.all_ready "ABCD" Sample.open_room eq_refl eq_refl eq_refl
              ltac:(simpl; intros p [<-|[<-|[]]] _; reflexivity))
              Sample.waiting_game (db Sample.all_ready) (db Sample.all_ready)
              eq_refl eq_refl)
    as (st' & Hrun & Hcalls & Hgames & _).
  exists st'. split; [exact Hrun|]. split; [reflexivity|].
  split; [rewrite Hgames; reflexivity | exact Hcalls].
Defined.

(** ** [EndGameView.post] *)

(** [EndGameView.post] for a user who is not the host of the room. *)
Lemma end_post_not_host (E : Env) (request : Request) (st : State)
    (code : string) (gid : pyval) (room : Room) :
  if_truthy (dict_get (req_roomCode (data request))) = Some code ->
  if_truthy (dict_get (req_gameId (data request))) = Some gid ->
  Room_objects_get code st = (Return room, st) ->
  room_host room <> user request ->
  EndGameView.post E request st =
  (Return (Response_error "Only the host can end the game." HTTP_403_FORBIDDEN), st).
Proof.
  intros Hcode Hgid Hroom Hhost.
  unfold EndGameView.post. rewrite Hcode, Hgid.
  unfold bind at 1. rewrite (try_room_found _ _ _ _ Hroom).
  apply Z.eqb_neq in Hhost. rewrite Hhost. reflexivity.
Qed.

(** Past the field, room and host checks [EndGameView.post] is the call of
    [room.end_game()] under its [try]. *)
Lemma end_post_past_host_check (E : Env) (request : Request) (st : State)
    (code : string) (gid : pyval) (room : Room) :
  if_truthy (dict_get (req_roomCode (data request))) = Some code ->
  if_truthy (dict_get (req_gameId (data request))) = Some gid ->
  Room_objects_get code st = (Return room, st) ->
  room_host room = user request ->
  EndGameView.post E request st =
  match end_game E room (db st) with
  | (Return _, d') =>
      (Return {| body := StatusBody "game_ended"; status := HTTP_200_OK |},
       {| db := d'; calls := calls st ++ [Call_end_game (room_id room)] |})
  | (Raise (ValueError msg), d') =>
      (Return (Response_error msg HTTP_400_BAD_REQUEST),
       {| db := d'; calls := calls st ++ [Call_end_game (room_id room)] |})
  | (Raise e, d') =>
      (Raise e, {| db := d'; calls := calls st ++ [Call_end_game (room_id room)] |})
  end.
Proof.
  intros Hcode Hgid Hroom Hhost.
  unfold EndGameView.post. rewrite Hcode, Hgid.
  unfold bind at 1. rewrite (try_room_found _ _ _ _ Hroom).
  rewrite Hhost, Z.eqb_refl. simpl.
  unfold_monad. simpl.
  destruct (end_game E room (db st)) as [[[]|e] d']; [reflexivity|].
  destruct e; reflexivity.
Qed.

(** C8. When the host of an existing room asks to end the game with both
    [roomCode] and [gameId] present, [EndGameView.post] calls
    [room.end_game()]: the state it ends in is the database that call left,
    with the call recorded.  If the call raises [ValueError] the answer is 400
    with the text of the error and nothing is changed beyond what the call
    did; if the call returns, the answer is 200 with the body
    [{"status": "game_ended"}]. *)
Theorem end_game_called (E : Env) (request : Request) (st : State)
    (code : string) (gid : pyval) (room : Room) :
  if_truthy (dict_get (req_roomCode (data request))) = Some code ->
  if_truthy (dict_get (req_gameId (data request))) = Some gid ->
  Room_objects_get code st = (Return room, st) ->
  room_host room = user request ->
  (exists r, EndGameView.post E request st =
     (r, {| db := snd (end_game E room (db st));
            calls := calls st ++ [Call_end_game (room_id room)] |})) /\
  (forall msg d', end_game E room (db st) = (Raise (ValueError msg), d') ->
     EndGameView.post E request st =
     (Return {| body := ErrorBody msg; status := 400 |},
      {| db := d'; calls := calls st ++ [Call_end_game (room_id room)] |})) /\
  (forall d', end_game E room (db st) = (Return tt, d') ->
     EndGameView.post E request st =
     (Return {| body := StatusBody "game_ended"; status := 200 |},
      {| db := d'; calls := calls st ++ [Call_end_game (room_id room)] |})).
Proof.
  intros Hcode Hgid Hroom Hhost.
  rewrite (end_post_past_host_check E request st code gid room Hcode Hgid Hroom Hhost).
  repeat split.
  - destruct (end_game E room (db st)) as [[[]|e] d']; [|destruct e];
      eexists; reflexivity.
  - intros msg d' ->. reflexivity.
  - intros d' ->. reflexivity.
Qed.

(** The host ends the round that runs in the sample room. *)
Lemma end_game_called_witness :
  EndGameView.post Sample.env
    {| user := Sample.host;
       data := Sample.body_of (Present "ABCD") Absent Absent (Present (PInt 7)) |}
    Sample.round_running =
  (Return {| body := StatusBody "game_ended"; status := 200 |},
   {| db := set_games [{| game_id := 7; game_room := 1; game_status := "ended" |}]
              (db Sample.round_running);
      calls := [Call_end_game 1] |}).
Proof.
  apply (end_game_called Sample.env _ Sample.round_running "ABCD" (PInt 7) Sample.open_room);
    reflexivity.
Defined.

(** C10. The value of [gameId] does not matter beyond its truthiness: two
    requests to [EndGameView] that differ only in a truthy [gameId] get the
    same response and leave the same state, and a request whose [gameId] is
    missing or falsy is answered 400.  [gameId] never selects the game that
    [room.end_game()] ends. *)
Theorem gameId_only_presence (E : Env) (request : Request) (st : State)
    (gid1 gid2 : pyval) :
  truthy gid1 = true ->
  truthy gid2 = true ->
  EndGameView.post E (with_gameId (Present gid1) request) st =
  EndGameView.post E (with_gameId (Present gid2) request) st /\
  (forall gid, truthy (dict_get gid) = false ->
     EndGameView.post E (with_gameId gid request) st =
     (Return {| body := ErrorBody "roomCode and gameId required"; status := 400 |}, st)).
Proof.
  intros H1 H2. split.
  - unfold EndGameView.post. simpl. rewrite H1, H2. reflexivity.
  - intros gid Hgid. apply if_truthy_None in Hgid.
    unfold EndGameView.post. simpl. rewrite Hgid.
    destruct (if_truthy (dict_get (req_roomCode (data request)))); reflexivity.
Qed.

(** Ending the running round of the sample room with two different keys. *)
Lemma gameId_only_presence_witness :
  EndGameView.post Sample.env
    {| user := Sample.host;
       data := Sample.body_of (Present "ABCD") Absent Absent (Present (PInt 7)) |}
    Sample.round_running =
  EndGameView.post Sample.env
    {| user := Sample.host;
       data := Sample.body_of (Present "ABCD") Absent Absent (Present (PStr "no-such-game")) |}
    Sample.round_running.
Proof.
  apply (gameId_only_presence Sample.env
           {| user := Sample.host;
              data := Sample.body_of (Present "ABCD") Absent Absent Absent |}
           Sample.round_running (PInt 7) (PStr "no-such-game")); reflexivity.
Defined.

(** ** Room and host checks across the three views *)

(** C2, as the views have it.  A request by a user who is not the host of the
    room its [roomCode] identifies never changes the state.  [StartGameView]
    answers it 403.  [EndGameView] answers it 403 when [gameId] is truthy and
    400 otherwise.  [CreateGameView] answers it 400 when [topic] or
    [subtopics] is not truthy; with both truthy it answers 403 when the room
    is active and 404 when it is not. *)
Theorem only_host_past_field_checks (E : Env) (request : Request) (st : State)
    (code : string) (room : Room) :
  if_truthy (dict_get (req_roomCode (data request))) = Some code ->
  Room_objects_get code st = (Return room, st) ->
  user request <> room_host room ->
  StartGameView.post E request st =
    (Return {| body := ErrorBody "Only the host can start the game."; status := 403 |}, st) /\
  (truthy (dict_get (req_gameId (data request))) = true ->
   EndGameView.post E request st =
     (Return {| body := ErrorBody "Only the host can end the game."; status := 403 |}, st)) /\
  (truthy (dict_get (req_gameId (data request))) = false ->
   EndGameView.post E request st =
     (Return {| body := ErrorBody "roomCode and gameId required"; status := 400 |}, st)) /\
  (truthy (dict_get (req_topic (data request))) = true ->
   truthy (dict_get (req_subtopics (data request))) = true ->
   room_status room = "active" ->
   CreateGameView.post E request st =
     (Return {| body := ErrorBody "Only the host can create the game."; status := 403 |}, st)) /\
  (truthy (dict_get (req_topic (data request))) = true ->
   truthy (dict_get (req_subtopics (data request))) = true ->
   room_status room <> "active" ->
   CreateGameView.post E request st =
     (Return {| body := ErrorBody
                  ("Room with code " ++ code ++ " not found or has been closed.");
                status := 404 |}, st)) /\
  (truthy (dict_get (req_topic (data request))) = false \/
   truthy (dict_get (req_subtopics (data request))) = false ->
   CreateGameView.post E request st =
     (Return
        {| body := ErrorBody
             "`topic` and `subtopics` are required; `n` and `difficulty` are optional.";
           status := 400 |}, st)).
Proof.
  intros Hcode Hroom Hhost.
  assert (room_host room <> user request) as Hhost' by congruence.
  assert (forall topic_ subs,
            if_truthy (dict_get (req_topic (data request))) = Some topic_ ->
            if_truthy (dict_get (req_subtopics (data request))) = Some subs ->
            CreateGameView.post E request st =
            if String.eqb (room_status room) "active"
            then (Return (Response_error "Only the host can create the game." 403), st)
            else (Return (Response_error
                            ("Room with code " ++ code ++ " not found or has been closed.")
                            404), st)) as Hcreate.
  { intros topic_ subs Htopic Hsubs.
    rewrite (create_post_fields_present E request st topic_ code subs Htopic Hsubs Hcode _
               (validate_room_found code st room Hroom)).
    destruct (String.eqb (room_status room) "active"); [|reflexivity].
    apply Z.eqb_neq in Hhost. rewrite Hhost. reflexivity. }
  split; [|split; [|split; [|split; [|split]]]].
  - rewrite (start_post_room_found E request st code room Hcode Hroom).
    apply Z.eqb_neq in Hhost'. rewrite Hhost'. reflexivity.
  - intros Hgid. apply truthy_if_truthy in Hgid as [gid Hgid].
    apply (end_post_not_host E request st code gid room); assumption.
  - intros Hgid. apply if_truthy_None in Hgid.
    unfold EndGameView.post. rewrite Hcode, Hgid. reflexivity.
  - intros Htopic Hsubs Hactive.
    apply truthy_if_truthy in Htopic as [topic_ Htopic].
    apply truthy_if_truthy in Hsubs as [subs Hsubs].
    rewrite (Hcreate topic_ subs Htopic Hsubs), Hactive. reflexivity.
  - intros Htopic Hsubs Hclosed.
    apply truthy_if_truthy in Htopic as [topic_ Htopic].
    apply truthy_if_truthy in Hsubs as [subs Hsubs].
    rewrite (Hcreate topic_ subs Htopic Hsubs).
    apply String.eqb_neq in Hclosed. rewrite Hclosed. reflexivity.
  - intros [Htopic|Hsubs].
    + apply if_truthy_None in Htopic.
      unfold CreateGameView.post. rewrite Htopic. reflexivity.
    + apply if_truthy_None in Hsubs.
      unfold CreateGameView.post. rewrite Hsubs.
      destruct (if_truthy (dict_get (req_topic (data request)))); reflexivity.
Qed.

(** A player who is not the host asks to start the sample room. *)
Lemma only_host_past_field_checks_witness :
  StartGameView.post Sample.env
    {| user := Sample.guest; data := Sample.create_body "ABCD" |} Sample.all_ready =
  (Return {| body := ErrorBody "Only the host can start the game."; status := 403 |},
   Sample.all_ready).
Proof.
  apply (only_host_past_field_checks Sample.env
           {| user := Sample.guest; data := Sample.create_body "ABCD" |}
           Sample.all_ready "ABCD" Sample.open_room);
    [reflexivity | reflexivity | discriminate].
Defined.

(** Two requests by a player who is not the host that are not answered 403:
    a complete create request for the closed room of the host is answered
    404, and an end request for the open room that carries no [gameId] is
    answered 400. *)
Lemma only_host_not_always_403 :
  Room_objects_get "WXYZ" Sample.empty_rooms =
    (Return Sample.closed_room, Sample.empty_rooms) /\
  Sample.guest <> room_host Sample.closed_room /\
  CreateGameView.post Sample.env
    {| user := Sample.guest; data := Sample.create_body "WXYZ" |} Sample.empty_rooms =
    (Return {| body := ErrorBody "Room with code WXYZ not found or has been closed.";
               status := 404 |}, Sample.empty_rooms) /\
  Room_objects_get "ABCD" Sample.round_running =
    (Return Sample.open_room, Sample.round_running) /\
  Sample.guest <> room_host Sample.open_room /\
  EndGameView.post Sample.env
    {| user := Sample.guest;
       data := Sample.body_of (Present "ABCD") Absent Absent Absent |}
    Sample.round_running =
    (Return {| body := ErrorBody "roomCode and gameId required"; status := 400 |},
     Sample.round_running).
Proof. repeat split; discriminate. Qed.

(** C7, as the views have it.  A view first asks for its fields: a request
    whose [roomCode] is not truthy is answered 400 by every view, one whose
    [gameId] is not truthy by [EndGameView], and one whose [topic] or
    [subtopics] is not truthy by [CreateGameView], whatever rooms there are.
    Once those fields are truthy, the room is resolved by its [roomCode]
    alone and a code no room has is answered 404.  [CreateGameView] wants an
    active room on top, and answers 404 'not found or has been closed' when
    no active room has the code; [StartGameView] and [EndGameView] take the
    room of the code in any status and never answer 404 for it. *)
Theorem room_resolved_by_code (E : Env) (request : Request) (st : State) :
  (truthy (dict_get (req_roomCode (data request))) = false ->
   StartGameView.post E request st =
     (Return {| body := ErrorBody "roomCode is required"; status := 400 |}, st) /\
   EndGameView.post E request st =
     (Return {| body := ErrorBody "roomCode and gameId required"; status := 400 |}, st) /\
   (truthy (dict_get (req_topic (data request))) = true ->
    truthy (dict_get (req_subtopics (data request))) = true ->
    CreateGameView.post E request st =
      (Return {| body := ErrorBody "roomCode is required"; status := 400 |}, st))) /\
  (truthy (dict_get (req_gameId (data request))) = false ->
   EndGameView.post E request st =
     (Return {| body := ErrorBody "roomCode and gameId required"; status := 400 |}, st)) /\
  (truthy (dict_get (req_topic (data request))) = false \/
   truthy (dict_get (req_subtopics (data request))) = false ->
   CreateGameView.post E request st =
     (Return
        {| body := ErrorBody
             "`topic` and `subtopics` are required; `n` and `difficulty` are optional.";
           status := 400 |}, st)) /\
  (forall code,
   if_truthy (dict_get (req_roomCode (data request))) = Some code ->
   ((forall r, In r (rooms (db st)) -> room_code r <> code) ->
    StartGameView.post E request st =
      (Return {| body := ErrorBody "Room not found."; status := 404 |}, st) /\
    (truthy (dict_get (req_gameId (data request))) = true ->
     EndGameView.post E request st =
       (Return {| body := ErrorBody "Room not found."; status := 404 |}, st))) /\
   ((forall r, In r (rooms (db st)) -> room_code r = code -> room_status r <> "active") ->
    truthy (dict_get (req_topic (data request))) = true ->
    truthy (dict_get (req_subtopics (data request))) = true ->
    CreateGameView.post E request st =
      (Return {| body := ErrorBody
                   ("Room with code " ++ code ++ " not found or has been closed.");
                 status := 404 |}, st)) /\
   (forall room, Room_objects_get code st = (Return room, st) ->
    (forall r st', StartGameView.post E request st = (Return r, st') -> status r <> 404) /\
    (forall r st', EndGameView.post E request st = (Return r, st') -> status r <> 404)) /\
   (forall room, Room_objects_aget code "active" st = (Return room, st) ->
    forall r st', CreateGameView.post E request st = (Return r, st') -> status r <> 404)).
Proof.
  split; [|split; [|split]].
  - intros Hcode. apply if_truthy_None in Hcode.
    split; [unfold StartGameView.post; rewrite Hcode; reflexivity|].
    split; [unfold EndGameView.post; rewrite Hcode; reflexivity|].
    intros Htopic Hsubs.
    apply truthy_if_truthy in Htopic as [topic_ Htopic].
    apply truthy_if_truthy in Hsubs as [subs Hsubs].
    unfold CreateGameView.post. rewrite Htopic, Hsubs, Hcode. reflexivity.
  - intros Hgid. apply if_truthy_None in Hgid.
    unfold EndGameView.post. rewrite Hgid.
    destruct (if_truthy (dict_get (req_roomCode (data request)))); reflexivity.
  - intros [Htopic|Hsubs].
    + apply if_truthy_None in Htopic.
      unfold CreateGameView.post. rewrite Htopic. reflexivity.
    + apply if_truthy_None in Hsubs.
      unfold CreateGameView.post. rewrite Hsubs.
      destruct (if_truthy (dict_get (req_topic (data request)))); reflexivity.
  - intros code Hcode. split; [|split; [|split]].
    + intros Hnone. split.
      * unfold StartGameView.post. rewrite Hcode.
        unfold bind at 1. rewrite (try_room_missing _ _ _ Hnone). reflexivity.
      * intros Hgid. apply truthy_if_truthy in Hgid as [gid Hgid].
        unfold EndGameView.post. rewrite Hcode, Hgid.
        unfold bind at 1. rewrite (try_room_missing _ _ _ Hnone). reflexivity.
    + intros Hnone Htopic Hsubs.
      apply truthy_if_truthy in Htopic as [topic_ Htopic].
      apply truthy_if_truthy in Hsubs as [subs Hsubs].
      rewrite (create_post_fields_present E request st topic_ code subs Htopic Hsubs Hcode _
                 (validate_room_none code st Hnone)).
      reflexivity.
    + intros room Hroom. split.
      * intros r st'.
        rewrite (start_post_room_found E request st code room Hcode Hroom).
        destruct (negb (room_host room =? user request)); [intros [= <- _]; discriminate|].
        destruct (try_except _ _ st) as [[[response|game]|e] st1] eqn:Hblock;
          intros [= <- _]; try discriminate.
        rewrite (start_block_early_400 E room st st1 response Hblock). discriminate.
      * intros r st'. unfold EndGameView.post. rewrite Hcode.
        destruct (if_truthy (dict_get (req_gameId (data request)))) as [gid|];
          [|intros [= <- _]; discriminate].
        unfold bind at 1. rewrite (try_room_found _ _ _ _ Hroom).
        destruct (negb (room_host room =? user request)); [intros [= <- _]; discriminate|].
        unfold_monad. simpl.
        destruct (end_game E room (db st)) as [[[]|e] d']; [|destruct e];
          simpl; intros [= <- _]; discriminate.
    + intros room Hroom r st'.
      assert (CreateGameView.validate_room code st = (Return (Some room), st)) as Hvalid.
      { unfold CreateGameView.validate_room, try_except, bind. rewrite Hroom. reflexivity. }
      unfold CreateGameView.post.
      destruct (if_truthy (dict_get (req_topic (data request)))) as [topic_|];
        [destruct (if_truthy (dict_get (req_subtopics (data request)))) as [subs|]|];
        try (intros [= <- _]; discriminate).
      rewrite Hcode. unfold bind at 1. rewrite Hvalid.
      unfold CreateGameView.validate_user, bind at 1, ret at 1.
      destruct (user request =? room_host room); simpl; intros [= <- _]; discriminate.
Qed.

(** The host asks to start a room under a code that no room has. *)
Lemma room_resolved_by_code_witness :
  StartGameView.post Sample.env
    {| user := Sample.host; data := Sample.create_body "NONE" |} Sample.all_ready =
  (Return {| body := ErrorBody "Room not found."; status := 404 |}, Sample.all_ready).
Proof.
  refine (proj1 (proj1 (proj2 (proj2 (proj2 (room_resolved_by_code Sample.env
           {| user := Sample.host; data := Sample.create_body "NONE" |}
           Sample.all_ready))) "NONE" eq_refl) _)).
  simpl. intros r [<-|[<-|[]]]; discriminate.
Defined.

(** Two requests under a code that no room has which are not answered 404:
    an end request without [gameId] and a create request without [topic] are
    both answered 400. *)
Lemma no_room_not_always_404 :
  (forall r, In r (rooms (db Sample.empty_rooms)) -> room_code r <> "NONE") /\
  EndGameView.post Sample.env
    {| user := Sample.host;
       data := Sample.body_of (Present "NONE") Absent Absent Absent |}
    Sample.empty_rooms =
    (Return {| body := ErrorBody "roomCode and gameId required"; status := 400 |},
     Sample.empty_rooms) /\
  CreateGameView.post Sample.env
    {| user := Sample.host;
       data := Sample.body_of (Present "NONE") Absent (Present ["fractions"]) Absent |}
    Sample.empty_rooms =
    (Return {| body := ErrorBody
                 "`topic` and `subtopics` are required; `n` and `difficulty` are optional.";
               status := 400 |},
     Sample.empty_rooms).
Proof.
  split; [|split; reflexivity].
  simpl. intros r [<-|[<-|[]]]; discriminate.
Qed.

(** * Further properties of the views *)

(** ** Lookups that find several rows *)

Lemma objects_get_many {A} (model : string) (p : A -> bool) (rows : list A) :
  (2 <= List.length (filter p rows))%nat ->
  objects_get model p rows = Raise (MultipleObjectsReturned model).
Proof.
  intros Hmany. unfold objects_get.
  destruct (filter p rows) as [|x [|y l]]; simpl in Hmany; [lia | lia | reflexivity].
Qed.

(** The [try] around the lookup of [StartGameView] and [EndGameView], by
    what the lookup finds. *)
Lemma try_room_cases (code : string) (st : State) (h : M (Response + Room)) :
  ((forall r, In r (rooms (db st)) -> room_code r <> code) /\
   try_except (room <- Room_objects_get code ;; ret (inr room))
     (except_DoesNotExist "Room" h) st = h st) \/
  (exists room,
     Room_objects_get code st = (Return room, st) /\
     try_except (room <- Room_objects_get code ;; ret (inr room))
       (except_DoesNotExist "Room" h) st = (Return (inr room), st)) \/
  ((2 <= List.length (filter (fun r => String.eqb (room_code r) code) (rooms (db st))))%nat /\
   try_except (room <- Room_objects_get code ;; ret (inr room))
     (except_DoesNotExist "Room" h) st = (Raise (MultipleObjectsReturned "Room"), st)).
Proof.
  destruct (objects_get_cases "Room" (fun r => String.eqb (room_code r) code)
              (rooms (db st))) as [[Hnone Hget]|[(room & Hone & Hget)|[Hmany Hget]]].
  - left. assert (forall r, In r (rooms (db st)) -> room_code r <> code) as Hno.
    { intros r Hin Hc.
      assert (In r (filter (fun r => String.eqb (room_code r) code) (rooms (db st)))) as Hf
        by (apply filter_In; split; [exact Hin | apply String.eqb_eq; exact Hc]).
      rewrite Hnone in Hf. destruct Hf. }
    split; [exact Hno | apply try_room_missing; exact Hno].
  - right. left. exists room.
    assert (Room_objects_get code st = (Return room, st)) as Hroom
      by (rewrite Room_objects_get_state, Hget; reflexivity).
    split; [exact Hroom | apply try_room_found; exact Hroom].
  - right. right. split; [exact Hmany|].
    unfold try_except, bind. rewrite Room_objects_get_state, Hget. reflexivity.
Qed.

(** ** [CreateGameView.validate_room] *)

(** [validate_room] by what the lookup finds. *)
Lemma validate_room_cases (code : string) (st : State) :
  let found := filter (fun r => String.eqb (room_code r) code &&
                                String.eqb (room_status r) "active") (rooms (db st)) in
  (found = [] /\ CreateGameView.validate_room code st = (Return None, st)) \/
  (exists room, found = [room] /\
     CreateGameView.validate_room code st = (Return (Some room), st)) \/
  ((2 <= List.length found)%nat /\
   CreateGameView.validate_room code st = (Raise (MultipleObjectsReturned "Room"), st)).
Proof.
  intros found. unfold CreateGameView.validate_room, try_except, bind.
  rewrite Room_objects_aget_state.
  destruct (objects_get_cases "Room"
              (fun r => String.eqb (room_code r) code && String.eqb (room_status r) "active")
              (rooms (db st))) as [[Hnone ->]|[(room & Hone & ->)|[Hmany ->]]].
  - left. auto.
  - right. left. exists room. auto.
  - right. right. auto.
Qed.

Lemma filter_code_active_In (code : string) (rows : list Room) (r : Room) :
  In r (filter (fun r => String.eqb (room_code r) code &&
                         String.eqb (room_status r) "active") rows) <->
  In r rows /\ room_code r = code /\ room_status r = "active".
Proof.
  rewrite filter_In, andb_true_iff, !String.eqb_eq. tauto.
Qed.

(** X1. [validate_room] only reads.  The room it returns is stored, has the
    code, is active and is the only such room; it returns [None] exactly when
    no active room has the code, so a room that is not active is as good as
    absent; and the one exception it lets out is [MultipleObjectsReturned],
    raised when two or more active rooms share the code, which the
    [except Room.DoesNotExist] clause does not catch. *)
Theorem validate_room_sound (code : string) (st : State) :
  (forall room st', CreateGameView.validate_room code st = (Return (Some room), st') ->
     st' = st /\ In room (rooms (db st)) /\ room_code room = code /\
     room_status room = "active" /\
     (forall r, In r (rooms (db st)) -> room_code r = code ->
                room_status r = "active" -> r = room)) /\
  (forall st', CreateGameView.validate_room code st = (Return None, st') ->
     st' = st /\
     (forall r, In r (rooms (db st)) -> room_code r = code -> room_status r <> "active")) /\
  (forall e st', CreateGameView.validate_room code st = (Raise e, st') ->
     st' = st /\ e = MultipleObjectsReturned "Room" /\
     (2 <= List.length
             (filter (fun r => String.eqb (room_code r) code &&
                               String.eqb (room_status r) "active") (rooms (db st))))%nat) /\
  ((forall r, In r (rooms (db st)) -> room_code r = code -> room_status r <> "active") ->
   CreateGameView.validate_room code st = (Return None, st)).
Proof.
  destruct (validate_room_cases code st) as [[Hnone Hrun]|[(room0 & Hone & Hrun)|[Hmany Hrun]]];
    rewrite Hrun; (split; [|split; [|split]]); try (intros; discriminate).
  - intros st' [= <-]. split; [reflexivity|].
    intros r Hin Hcode Hactive.
    assert (In r []) as [].
    rewrite <- Hnone. apply filter_code_active_In. auto.
  - intros _. reflexivity.
  - intros room st' [= <- <-]. split; [reflexivity|].
    assert (In room0 [room0]) as Hin by (left; reflexivity).
    rewrite <- Hone in Hin. apply filter_code_active_In in Hin as (Hin & Hcode & Hactive).
    repeat split; try assumption.
    intros r Hr Hrc Hra.
    assert (In r [room0]) as [<-|[]]; [|reflexivity].
    rewrite <- Hone. apply filter_code_active_In. auto.
  - intros Hnone. exfalso.
    assert (In room0 [room0]) as Hin by (left; reflexivity).
    rewrite <- Hone in Hin. apply filter_code_active_In in Hin as (Hin & Hcode & Hactive).
    exact (Hnone room0 Hin Hcode Hactive).
  - intros e st' [= <- <-]. auto.
  - intros Hnone. exfalso.
    destruct (filter _ (rooms (db st))) as [|x l] eqn:Hf; [simpl in Hmany; lia|].
    assert (In x (x :: l)) as Hin by (left; reflexivity).
    rewrite <- Hf in Hin. apply filter_code_active_In in Hin as (Hin & Hcode & Hactive).
    exact (Hnone x Hin Hcode Hactive).
Qed.

(** The closed room of the sample is not found under its own code. *)
Lemma validate_room_sound_witness :
  CreateGameView.validate_room "WXYZ" Sample.empty_rooms = (Return None, Sample.empty_rooms).
Proof.
  apply (validate_room_sound "WXYZ" Sample.empty_rooms).
  simpl. intros r [<-|[<-|[]]]; discriminate.
Defined.

(** ** [CreateGameView.post], every request *)

(** [CreateGameView.post] once the fields are there, by what [validate_room]
    answers. *)
Lemma create_post_run (E : Env) (request : Request) (st : State)
    (topic_ code : string) (subs : list string) :
  if_truthy (dict_get (req_topic (data request))) = Some topic_ ->
  if_truthy (dict_get (req_subtopics (data request))) = Some subs ->
  if_truthy (dict_get (req_roomCode (data request))) = Some code ->
  CreateGameView.post E request st =
  match CreateGameView.validate_room code st with
  | (Return None, st1) =>
      (Return (Response_error
                 ("Room with code " ++ code ++ " not found or has been closed.")
                 HTTP_404_NOT_FOUND), st1)
  | (Return (Some room), st1) =>
      if user request =? room_host room
      then CreateGameView.game_in_progress
             (ObjCoroutine (Game_objects_aget room "in_progress")) st1
      else (Return (Response_error "Only the host can create the game."
                      HTTP_403_FORBIDDEN), st1)
  | (Raise e, st1) => (Raise e, st1)
  end.
Proof.
  intros Htopic Hsubs Hcode.
  unfold CreateGameView.post. rewrite Htopic, Hsubs, Hcode.
  unfold bind at 1.
  destruct (CreateGameView.validate_room code st) as [[[room|]|e] st1]; try reflexivity.
  unfold CreateGameView.validate_user, bind at 1, ret at 1.
  destruct (user request =? room_host room); reflexivity.
Qed.

(** The outcomes of [CreateGameView.post]. *)
Lemma create_post_cases (E : Env) (request : Request) (st : State) :
  (exists r, CreateGameView.post E request st = (Return r, st) /\
             (status r = 400 \/ status r = 403 \/ status r = 404)) \/
  CreateGameView.post E request st =
    (Raise (AttributeError "'coroutine' object has no attribute 'id'"), st) \/
  CreateGameView.post E request st = (Raise (MultipleObjectsReturned "Room"), st).
Proof.
  destruct (if_truthy (dict_get (req_topic (data request)))) as [topic_|] eqn:Htopic;
    [destruct (if_truthy (dict_get (req_subtopics (data request)))) as [subs|] eqn:Hsubs;
     [destruct (if_truthy (dict_get (req_roomCode (data request)))) as [code|] eqn:Hcode|]|].
  - destruct (validate_room_cases code st) as [[_ Hrun]|[(room & _ & Hrun)|[_ Hrun]]].
    + rewrite (create_post_fields_present E request st topic_ code subs
                 Htopic Hsubs Hcode None Hrun).
      left. eexists. split; [reflexivity | right; right; reflexivity].
    + rewrite (create_post_fields_present E request st topic_ code subs
                 Htopic Hsubs Hcode (Some room) Hrun).
      destruct (user request =? room_host room).
      * right. left. reflexivity.
      * left. eexists. split; [reflexivity | right; left; reflexivity].
    + right. right. unfold CreateGameView.post. rewrite Htopic, Hsubs, Hcode.
      unfold bind at 1. rewrite Hrun. reflexivity.
  - left. unfold CreateGameView.post. rewrite Htopic, Hsubs, Hcode.
    eexists. split; [reflexivity | left; reflexivity].
  - left. unfold CreateGameView.post. rewrite Htopic, Hsubs.
    eexists. split; [reflexivity | left; reflexivity].
  - left. unfold CreateGameView.post. rewrite Htopic.
    eexists. split; [reflexivity | left; reflexivity].
Qed.

(** X2. [CreateGameView.post] never writes: whatever the request, the
    database and the record of calls are left as they were, so the view
    creates no game and no question and never reaches the AI service.  It
    answers 400, 403 or 404, or lets out [AttributeError] (from the host of
    an active room) or [MultipleObjectsReturned]; it never answers 200 or
    201. *)
Theorem create_post_never_writes (E : Env) (request : Request) (st : State) :
  snd (CreateGameView.post E request st) = st /\
  (forall r, fst (CreateGameView.post E request st) = Return r ->
     (status r = 400 \/ status r = 403 \/ status r = 404) /\
     status r <> 200 /\ status r <> 201) /\
  (forall e, fst (CreateGameView.post E request st) = Raise e ->
     e = AttributeError "'coroutine' object has no attribute 'id'" \/
     e = MultipleObjectsReturned "Room").
Proof.
  destruct (create_post_cases E request st) as [(r0 & -> & Hst)|[->| ->]]; simpl.
  - split; [reflexivity|]. split; [|intros e; discriminate].
    intros r [= <-]. split; [exact Hst|]. split; lia.
  - split; [reflexivity|]. split; [intros r; discriminate|].
    intros e [= <-]. left. reflexivity.
  - split; [reflexivity|]. split; [intros r; discriminate|].
    intros e [= <-]. right. reflexivity.
Qed.

(** The host asks for a game while a round runs in the sample room:
    nothing is written. *)
Lemma create_post_never_writes_witness :
  snd (CreateGameView.post Sample.env
         {| user := Sample.host; data := Sample.create_body "ABCD" |}
         Sample.round_running) = Sample.round_running.
Proof.
  apply (create_post_never_writes Sample.env
           {| user := Sample.host; data := Sample.create_body "ABCD" |}
           Sample.round_running).
Defined.

(** X3. [CreateGameView.post] looks at the user, at [roomCode] and at whether
    [topic] and [subtopics] are truthy, and at nothing else: the values of
    [topic] and [subtopics], [n], [difficulty], [gameId] and the AI service
    behind the view make no difference to the outcome or to the state. *)
Theorem create_post_reads_only (E1 E2 : Env) (request1 request2 : Request) (st : State) :
  user request1 = user request2 ->
  dict_get (req_roomCode (data request1)) = dict_get (req_roomCode (data request2)) ->
  truthy (dict_get (req_topic (data request1))) =
    truthy (dict_get (req_topic (data request2))) ->
  truthy (dict_get (req_subtopics (data request1))) =
    truthy (dict_get (req_subtopics (data request2))) ->
  CreateGameView.post E1 request1 st = CreateGameView.post E2 request2 st.
Proof.
  intros Huser Hcode Htopic Hsubs.
  assert (forall {A} `{Truthy A} (x y : option A),
            truthy x = truthy y ->
            (if_truthy x = None /\ if_truthy y = None) \/
            (exists a b, if_truthy x = Some a /\ if_truthy y = Some b)) as Hboth.
  { intros A T x y Hxy. destruct (truthy y) eqn:Hy.
    - right. destruct (truthy_if_truthy x Hxy) as [a Ha].
      destruct (truthy_if_truthy y Hy) as [b Hb]. eauto.
    - left. split; apply if_truthy_None; assumption. }
  destruct (Hboth _ _ _ _ Htopic) as [[Ht1 Ht2]|(t1 & t2 & Ht1 & Ht2)];
    [unfold CreateGameView.post; rewrite Ht1, Ht2; reflexivity|].
  destruct (Hboth _ _ _ _ Hsubs) as [[Hs1 Hs2]|(s1 & s2 & Hs1 & Hs2)];
    [unfold CreateGameView.post; rewrite Ht1, Ht2, Hs1, Hs2; reflexivity|].
  destruct (if_truthy (dict_get (req_roomCode (data request2)))) as [code|] eqn:Hc2.
  - assert (if_truthy (dict_get (req_roomCode (data request1))) = Some code) as Hc1
      by (rewrite Hcode; exact Hc2).
    rewrite (create_post_run E1 request1 st t1 code s1 Ht1 Hs1 Hc1).
    rewrite (create_post_run E2 request2 st t2 code s2 Ht2 Hs2 Hc2).
    rewrite Huser. reflexivity.
  - assert (if_truthy (dict_get (req_roomCode (data request1))) = None) as Hc1
      by (rewrite Hcode; exact Hc2).
    unfold CreateGameView.post. rewrite Ht1, Ht2, Hs1, Hs2, Hc1, Hc2. reflexivity.
Qed.

(** The host of the sample room asks for five easy and for fifty hard
    questions on another topic, against two different AI services. *)
Lemma create_post_reads_only_witness :
  CreateGameView.post Sample.env
    {| user := Sample.host; data := Sample.create_body "ABCD" |} Sample.empty_rooms =
  CreateGameView.post Outage.ai_down
    {| user := Sample.host;
       data := {| req_roomCode := Present "ABCD"; req_topic := Present "history";
                  req_subtopics := Present ["rome"; "greece"]; req_n := Present 50;
                  req_difficulty := Present "hard"; req_gameId := Null |} |}
    Sample.empty_rooms.
Proof.
  apply (create_post_reads_only Sample.env Outage.ai_down); reflexivity.
Defined.

(** ** Requests without a room code, and codes that several rooms carry *)

(** X4. A request whose [roomCode] is missing, [null] or the empty string is
    answered 400 by each of the three views before anything is looked up,
    and the state is left alone.  [CreateGameView] names [roomCode] in the
    error only when [topic] and [subtopics] are both there; otherwise its
    error is the one about [topic] and [subtopics]. *)
Theorem missing_roomCode_400 (E : Env) (request : Request) (st : State) :
  truthy (dict_get (req_roomCode (data request))) = false ->
  StartGameView.post E request st =
    (Return {| body := ErrorBody "roomCode is required"; status := 400 |}, st) /\
  EndGameView.post E request st =
    (Return {| body := ErrorBody "roomCode and gameId required"; status := 400 |}, st) /\
  CreateGameView.post E request st =
    (Return
       {| body := ErrorBody
            (if truthy (dict_get (req_topic (data request))) &&
                truthy (dict_get (req_subtopics (data request)))
             then "roomCode is required"
             else "`topic` and `subtopics` are required; `n` and `difficulty` are optional.");
          status := 400 |}, st).
Proof.
  intros Hcode. apply if_truthy_None in Hcode.
  unfold StartGameView.post, EndGameView.post, CreateGameView.post. rewrite Hcode.
  split; [reflexivity|]. split; [reflexivity|].
  destruct (truthy (dict_get (req_topic (data request)))) eqn:Htopic.
  - destruct (truthy_if_truthy _ Htopic) as [t ->].
    destruct (truthy (dict_get (req_subtopics (data request)))) eqn:Hsubs.
    + destruct (truthy_if_truthy _ Hsubs) as [s ->]. reflexivity.
    + apply if_truthy_None in Hsubs. rewrite Hsubs. reflexivity.
  - apply if_truthy_None in Htopic. rewrite Htopic. reflexivity.
Qed.

(** The host sends an empty room code. *)
Lemma missing_roomCode_400_witness :
  StartGameView.post Sample.env
    {| user := Sample.host; data := Sample.create_body "" |} Sample.all_ready =
  (Return {| body := ErrorBody "roomCode is required"; status := 400 |}, Sample.all_ready).
Proof.
  apply (missing_roomCode_400 Sample.env
           {| user := Sample.host; data := Sample.create_body "" |} Sample.all_ready).
  reflexivity.
Defined.

(** X5. When two or more rooms carry the requested code, [StartGameView] and
    [EndGameView] give no response: the lookup raises
    [MultipleObjectsReturned], which [except Room.DoesNotExist] does not
    catch, whoever asks.  [CreateGameView] does the same when two or more
    active rooms carry the code.  The state is left alone. *)
Theorem shared_room_code_raises (E : Env) (request : Request) (st : State) (code : string) :
  if_truthy (dict_get (req_roomCode (data request))) = Some code ->
  ((2 <= List.length (filter (fun r => String.eqb (room_code r) code)
                        (rooms (db st))))%nat ->
   StartGameView.post E request st = (Raise (MultipleObjectsReturned "Room"), st) /\
   (truthy (dict_get (req_gameId (data request))) = true ->
    EndGameView.post E request st = (Raise (MultipleObjectsReturned "Room"), st))) /\
  ((2 <= List.length (filter (fun r => String.eqb (room_code r) code &&
                                       String.eqb (room_status r) "active")
                        (rooms (db st))))%nat ->
   truthy (dict_get (req_topic (data request))) = true ->
   truthy (dict_get (req_subtopics (data request))) = true ->
   CreateGameView.post E request st = (Raise (MultipleObjectsReturned "Room"), st)).
Proof.
  intros Hcode. split.
  - intros Hmany.
    assert (forall h : M (Response + Room),
              try_except (room <- Room_objects_get code ;; ret (inr room))
                (except_DoesNotExist "Room" h) st =
                      (Raise (MultipleObjectsReturned "Room"), st)) as Htry.
    { intros h. unfold try_except, bind.
      rewrite Room_objects_get_state, (objects_get_many _ _ _ Hmany). reflexivity. }
    split.
    + unfold StartGameView.post. rewrite Hcode. unfold bind at 1. rewrite Htry. reflexivity.
    + intros Hgid. destruct (truthy_if_truthy _ Hgid) as [gid Hg].
      unfold EndGameView.post. rewrite Hcode, Hg. unfold bind at 1. rewrite Htry.
      reflexivity.
  - intros Hmany Htopic Hsubs.
    destruct (truthy_if_truthy _ Htopic) as [t Ht].
    destruct (truthy_if_truthy _ Hsubs) as [s Hs].
    unfold CreateGameView.post. rewrite Ht, Hs, Hcode. unfold bind at 1.
    destruct (validate_room_cases code st) as [[Hnone _]|[(room & Hone & _)|[_ ->]]].
    + rewrite Hnone in Hmany. simpl in Hmany. lia.
    + rewrite Hone in Hmany. simpl in Hmany. lia.
    + reflexivity.
Qed.

(** The host of one of two rooms under the code ABCD asks to start it. *)
Lemma shared_room_code_raises_witness :
  StartGameView.post Sample.env
    {| user := Sample.host; data := Sample.create_body "ABCD" |} Outage.twin_rooms =
  (Raise (MultipleObjectsReturned "Room"), Outage.twin_rooms).
Proof.
  refine (proj1 (proj1 (shared_room_code_raises Sample.env
           {| user := Sample.host; data := Sample.create_body "ABCD" |}
           Outage.twin_rooms "ABCD" eq_refl) _)).
  vm_compute. lia.
Defined.

(** ** [StartGameView.post] and [EndGameView.post], every request *)

Lemma participants_all_ready (room : Room) (d : DB) :
  participants_not_ready_exist room d = false ->
  forall p, In p (participants d) -> participant_room p = room_id room ->
            participant_status p = "ready".
Proof.
  intros Hnone p Hin Hroom.
  destruct (string_dec (participant_status p) "ready") as [Hready|Hnot]; [exact Hready|].
  assert (participants_not_ready_exist room d = true) as Hex; [|congruence].
  apply participants_not_ready_exist_true. exists p. auto.
Qed.

(** The outcomes of [StartGameView.post] short of the two model methods. *)
Lemma start_post_cases (E : Env) (request : Request) (st : State) :
  (exists r, StartGameView.post E request st = (Return r, st) /\
             (status r = 400 \/ status r = 403 \/ status r = 404)) \/
  StartGameView.post E request st = (Raise (MultipleObjectsReturned "Room"), st) \/
  (exists code room,
     if_truthy (dict_get (req_roomCode (data request))) = Some code /\
     Room_objects_get code st = (Return room, st) /\
     room_host room = user request /\
     participants_not_ready_exist room (db st) = false).
Proof.
  destruct (if_truthy (dict_get (req_roomCode (data request)))) as [code|] eqn:Hcode.
  - destruct (try_room_cases code st
                (ret (inl (Response_error "Room not found." HTTP_404_NOT_FOUND))))
      as [[_ Htry]|[(room & Hroom & _)|[_ Htry]]].
    + left. unfold StartGameView.post. rewrite Hcode. unfold bind at 1. rewrite Htry.
      eexists. split; [reflexivity | right; right; reflexivity].
    + destruct (room_host room =? user request) eqn:Hhost.
      * destruct (participants_not_ready_exist room (db st)) eqn:Hready.
        -- left. rewrite (start_post_room_found E request st code room Hcode Hroom).
           rewrite Hhost. simpl.
           unfold StartGameView.start_waiting_game. unfold_monad. rewrite Hready.
           eexists. split; [reflexivity | left; reflexivity].
        -- right. right. exists code, room. repeat split; try assumption. lia.
      * left. rewrite (start_post_room_found E request st code room Hcode Hroom).
        rewrite Hhost. eexists. split; [reflexivity | right; left; reflexivity].
    + right. left. unfold StartGameView.post. rewrite Hcode.
      unfold bind at 1. rewrite Htry. reflexivity.
  - left. unfold StartGameView.post. rewrite Hcode.
    eexists. split; [reflexivity | left; reflexivity].
Qed.

(** The outcomes of [EndGameView.post] short of [room.end_game()]. *)
Lemma end_post_cases (E : Env) (request : Request) (st : State) :
  (exists r, EndGameView.post E request st = (Return r, st) /\
             (status r = 400 \/ status r = 403 \/ status r = 404)) \/
  EndGameView.post E request st = (Raise (MultipleObjectsReturned "Room"), st) \/
  (exists code gid room,
     if_truthy (dict_get (req_roomCode (data request))) = Some code /\
     if_truthy (dict_get (req_gameId (data request))) = Some gid /\
     Room_objects_get code st = (Return room, st) /\
     room_host room = user request).
Proof.
  destruct (if_truthy (dict_get (req_roomCode (data request)))) as [code|] eqn:Hcode;
    [destruct (if_truthy (dict_get (req_gameId (data request)))) as [gid|] eqn:Hgid|].
  - destruct (try_room_cases code st
                (ret (inl (Response_error "Room not found." HTTP_404_NOT_FOUND))))
      as [[_ Htry]|[(room & Hroom & _)|[_ Htry]]].
    + left. unfold EndGameView.post. rewrite Hcode, Hgid. unfold bind at 1. rewrite Htry.
      eexists. split; [reflexivity | right; right; reflexivity].
    + destruct (Z.eq_dec (room_host room) (user request)) as [Hhost|Hhost].
      * right. right. exists code, gid, room. auto.
      * left. rewrite (end_post_not_host E request st code gid room Hcode Hgid Hroom Hhost).
        eexists. split; [reflexivity | right; left; reflexivity].
    + right. left. unfold EndGameView.post. rewrite Hcode, Hgid.
      unfold bind at 1. rewrite Htry. reflexivity.
  - left. unfold EndGameView.post. rewrite Hcode, Hgid.
    eexists. split; [reflexivity | left; reflexivity].
  - left. unfold EndGameView.post. rewrite Hcode.
    eexists. split; [reflexivity | left; reflexivity].
Qed.

(** X6. What a response of [StartGameView.post] tells.  The status is 200,
    400, 403 or 404, never the 201 its schema declares.  A 200 is given only
    to the host of the room of the code, with every participant of the room
    ready, after both model methods returned; its body carries the key of the
    game [get_waiting_game] returned, and a game of that key is then stored
    as "in_progress".  A 403 or 404 comes with the state untouched. *)
Theorem start_response_sound (E : Env) (request : Request) (st st' : State) (r : Response) :
  StartGameView.post E request st = (Return r, st') ->
  (status r = 200 \/ status r = 400 \/ status r = 403 \/ status r = 404) /\
  (status r = 403 \/ status r = 404 -> st' = st) /\
  (status r = 200 ->
   exists code room game d1 d2,
     if_truthy (dict_get (req_roomCode (data request))) = Some code /\
     Room_objects_get code st = (Return room, st) /\
     room_host room = user request /\
     (forall p, In p (participants (db st)) -> participant_room p = room_id room ->
                participant_status p = "ready") /\
     get_waiting_game E room (db st) = (Return game, d1) /\
     create_leaderboard E game d1 = (Return tt, d2) /\
     body r = GameIdBody (game_id game) /\
     In {| game_id := game_id game; game_room := game_room game;
           game_status := "in_progress" |} (games (db st'))).
Proof.
  intros Hrun.
  destruct (start_post_cases E request st)
    as [(r0 & Hr0 & Hst)|[Hraise|(code & room & Hcode & Hroom & Hhost & Hready)]].
  - rewrite Hr0 in Hrun. injection Hrun as <- <-.
    split; [tauto|]. split; [reflexivity|]. intros H200. lia.
  - rewrite Hraise in Hrun. discriminate.
  - rewrite (start_post_past_ready_check E request st code room Hcode Hroom Hhost Hready)
      in Hrun.
    cbv zeta in Hrun.
    destruct (get_waiting_game E room (db st)) as [[game|e] d1] eqn:Hget.
    + destruct (create_leaderboard E game d1) as [[[]|e] d2] eqn:Hboard.
      * injection Hrun as <- <-. split; [left; reflexivity|].
        split; [simpl; intros [H|H]; discriminate|]. intros _.
        exists code, room, game, d1, d2. repeat split; try assumption.
        -- apply participants_all_ready. exact Hready.
        -- simpl. apply save_row_In.
      * destruct e; try discriminate. injection Hrun as <- <-.
        split; [right; left; reflexivity|].
        split; simpl; [intros [H|H]; discriminate | discriminate].
    + destruct e; try discriminate. injection Hrun as <- <-.
      split; [right; left; reflexivity|].
      split; simpl; [intros [H|H]; discriminate | discriminate].
Qed.

(** The 200 the host of the sample room gets names game 8, now in
    progress. *)
Lemma start_response_sound_witness :
  exists code room game d1 d2,
    if_truthy (Some "ABCD") = Some code /\
    Room_objects_get code Sample.all_ready = (Return room, Sample.all_ready) /\
    room_host room = Sample.host /\
    (forall p, In p (participants (db Sample.all_ready)) ->
               participant_room p = room_id room -> participant_status p = "ready") /\
    get_waiting_game Sample.env room (db Sample.all_ready) = (Return game, d1) /\
    create_leaderboard Sample.env game d1 = (Return tt, d2) /\
    GameIdBody 8 = GameIdBody (game_id game) /\
    In {| game_id := game_id game; game_room := game_room game;
          game_status := "in_progress" |}
       [{| game_id := 8; game_room := 1; game_status := "in_progress" |}].
Proof.
  apply (start_response_sound Sample.env
           {| user := Sample.host; data := Sample.create_body "ABCD" |}
           Sample.all_ready
           {| db := set_games [{| game_id := 8; game_room := 1;
                                  game_status := "in_progress" |}]
                      (db Sample.all_ready);
              calls := [Call_get_waiting_game 1; Call_create_leaderboard 8] |}
           {| body := GameIdBody 8; status := 200 |}); reflexivity.
Defined.

(** X7. What a response of [EndGameView.post] tells.  The status is 200, 400,
    403 or 404.  A 200 is given only to the host of the room of the code, on
    a request that carries a [gameId], after [room.end_game()] returned; the
    state is then the one that call left, with the call on record.  A 403 or
    404 comes with the state untouched. *)
Theorem end_response_sound (E : Env) (request : Request) (st st' : State) (r : Response) :
  EndGameView.post E request st = (Return r, st') ->
  (status r = 200 \/ status r = 400 \/ status r = 403 \/ status r = 404) /\
  (status r = 403 \/ status r = 404 -> st' = st) /\
  (status r = 200 ->
   exists code room d',
     if_truthy (dict_get (req_roomCode (data request))) = Some code /\
     truthy (dict_get (req_gameId (data request))) = true /\
     Room_objects_get code st = (Return room, st) /\
     room_host room = user request /\
     end_game E room (db st) = (Return tt, d') /\
     body r = StatusBody "game_ended" /\
     st' = {| db := d'; calls := calls st ++ [Call_end_game (room_id room)] |}).
Proof.
  intros Hrun.
  destruct (end_post_cases E request st)
    as [(r0 & Hr0 & Hst)|[Hraise|(code & gid & room & Hcode & Hgid & Hroom & Hhost)]].
  - rewrite Hr0 in Hrun. injection Hrun as <- <-.
    split; [tauto|]. split; [reflexivity|]. intros H200. lia.
  - rewrite Hraise in Hrun. discriminate.
  - rewrite (end_post_past_host_check E request st code gid room Hcode Hgid Hroom Hhost)
      in Hrun.
    destruct (end_game E room (db st)) as [[[]|e] d'] eqn:Hend.
    + injection Hrun as <- <-. split; [left; reflexivity|].
      split; [simpl; intros [H|H]; discriminate|]. intros _.
      exists code, room, d'. repeat split; try assumption.
      destruct (if_truthy_None (dict_get (req_gameId (data request)))) as [_ Hnone].
      destruct (truthy (dict_get (req_gameId (data request)))); [reflexivity|].
      rewrite (Hnone eq_refl) in Hgid. discriminate.
    + destruct e; try discriminate. injection Hrun as <- <-.
      split; [right; left; reflexivity|].
      split; simpl; [intros [H|H]; discriminate | discriminate].
Qed.

(** The 200 the host of the sample room gets for ending the round. *)
Lemma end_response_sound_witness :
  exists code room d',
    if_truthy (Some "ABCD") = Some code /\
    truthy (Some (PInt 7)) = true /\
    Room_objects_get code Sample.round_running = (Return room, Sample.round_running) /\
    room_host room = Sample.host /\
    end_game Sample.env room (db Sample.round_running) = (Return tt, d') /\
    StatusBody "game_ended" = StatusBody "game_ended" /\
    {| db := set_games [{| game_id := 7; game_room := 1; game_status := "ended" |}]
               (db Sample.round_running);
       calls := [Call_end_game 1] |} =
    {| db := d'; calls := calls Sample.round_running ++ [Call_end_game (room_id room)] |}.
Proof.
  apply (end_response_sound Sample.env
           {| user := Sample.host;
              data := Sample.body_of (Present "ABCD") Absent Absent (Present (PInt 7)) |}
           Sample.round_running
           {| db := set_games [{| game_id := 7; game_room := 1; game_status := "ended" |}]
                      (db Sample.round_running);
              calls := [Call_end_game 1] |}
           {| body := StatusBody "game_ended"; status := 200 |}); reflexivity.
Defined.

(** X8. Only the host gets a game started or ended.  A request to
    [StartGameView] or [EndGameView] that leaves the state changed in any way
    came from the host of the one room of its [roomCode]; for
    [StartGameView] every participant of that room was ready, for
    [EndGameView] the request carried a [gameId]. *)
Theorem only_host_changes_state (E : Env) (request : Request) (st : State) :
  (snd (StartGameView.post E request st) <> st ->
   exists code room,
     if_truthy (dict_get (req_roomCode (data request))) = Some code /\
     Room_objects_get code st = (Return room, st) /\
     room_host room = user request /\
     (forall p, In p (participants (db st)) -> participant_room p = room_id room ->
                participant_status p = "ready")) /\
  (snd (EndGameView.post E request st) <> st ->
   exists code room,
     if_truthy (dict_get (req_roomCode (data request))) = Some code /\
     truthy (dict_get (req_gameId (data request))) = true /\
     Room_objects_get code st = (Return room, st) /\
     room_host room = user request).
Proof.
  split; intros Hchanged.
  - destruct (start_post_cases E request st)
      as [(r0 & Hr0 & _)|[Hraise|(code & room & Hcode & Hroom & Hhost & Hready)]].
    + rewrite Hr0 in Hchanged. contradiction Hchanged. reflexivity.
    + rewrite Hraise in Hchanged. contradiction Hchanged. reflexivity.
    + exists code, room. repeat split; try assumption.
      apply participants_all_ready. exact Hready.
  - destruct (end_post_cases E request st)
      as [(r0 & Hr0 & _)|[Hraise|(code & gid & room & Hcode & Hgid & Hroom & Hhost)]].
    + rewrite Hr0 in Hchanged. contradiction Hchanged. reflexivity.
    + rewrite Hraise in Hchanged. contradiction Hchanged. reflexivity.
    + exists code, room. repeat split; try assumption.
      destruct (if_truthy_None (dict_get (req_gameId (data request)))) as [_ Hnone].
      destruct (truthy (dict_get (req_gameId (data request)))); [reflexivity|].
      rewrite (Hnone eq_refl) in Hgid. discriminate.
Qed.

(** The request that started the sample room came from its host. *)
Lemma only_host_changes_state_witness :
  exists code room,
    if_truthy (Some "ABCD") = Some code /\
    Room_objects_get code Sample.all_ready = (Return room, Sample.all_ready) /\
    room_host room = Sample.host /\
    (forall p, In p (participants (db Sample.all_ready)) ->
               participant_room p = room_id room -> participant_status p = "ready").
Proof.
  apply (proj1 (only_host_changes_state Sample.env
           {| user := Sample.host; data := Sample.create_body "ABCD" |} Sample.all_ready)).
  discriminate.
Defined.

(** X9. The views catch [ValueError] and nothing else from the model
    methods.  Any other exception raised by [get_waiting_game],
    [create_leaderboard] or [end_game] goes out of the view as it is, no
    response is built and no game is saved: the database is the one the
    raising method left. *)
Theorem model_exceptions_propagate (E : Env) (request : Request) (st : State)
    (code : string) (room : Room) (e : exn) :
  if_truthy (dict_get (req_roomCode (data request))) = Some code ->
  Room_objects_get code st = (Return room, st) ->
  room_host room = user request ->
  (forall msg, e <> ValueError msg) ->
  ((forall p, In p (participants (db st)) -> participant_room p = room_id room ->
              participant_status p = "ready") ->
   (forall d1, get_waiting_game E room (db st) = (Raise e, d1) ->
      StartGameView.post E request st =
      (Raise e, {| db := d1;
                   calls := calls st ++ [Call_get_waiting_game (room_id room)] |})) /\
   (forall game d1 d2,
      get_waiting_game E room (db st) = (Return game, d1) ->
      create_leaderboard E game d1 = (Raise e, d2) ->
      StartGameView.post E request st =
      (Raise e, {| db := d2;
                   calls := calls st ++ [Call_get_waiting_game (room_id room);
                                         Call_create_leaderboard (game_id game)] |}))) /\
  (truthy (dict_get (req_gameId (data request))) = true ->
   forall d', end_game E room (db st) = (Raise e, d') ->
     EndGameView.post E request st =
     (Raise e, {| db := d'; calls := calls st ++ [Call_end_game (room_id room)] |})).
Proof.
  intros Hcode Hroom Hhost Hother. split.
  - intros Hready. apply participants_not_ready_exist_false in Hready.
    rewrite (start_post_past_ready_check E request st code room Hcode Hroom Hhost Hready).
    split.
    + intros d1 ->. destruct e; try reflexivity. contradiction (Hother msg eq_refl).
    + intros game d1 d2 -> ->. simpl. rewrite <- app_assoc.
      destruct e; try reflexivity. contradiction (Hother msg eq_refl).
  - intros Hgid d' Hend. destruct (truthy_if_truthy _ Hgid) as [gid Hg].
    rewrite (end_post_past_host_check E request st code gid room Hcode Hg Hroom Hhost), Hend.
    destruct e; try reflexivity. contradiction (Hother msg eq_refl).
Qed.

(** The host asks to start the sample room before any game was created,
    with model methods that raise [Game.DoesNotExist]. *)
Lemma model_exceptions_propagate_witness :
  StartGameView.post Outage.strict_models
    {| user := Sample.host; data := Sample.create_body "ABCD" |} Sample.empty_rooms =
  (Raise (DoesNotExist "Game"),
   {| db := db Sample.empty_rooms; calls := [Call_get_waiting_game 1] |}).
Proof.
  refine (proj1 (proj1 (model_exceptions_propagate Outage.strict_models
           {| user := Sample.host; data := Sample.create_body "ABCD" |}
           Sample.empty_rooms "ABCD" Sample.open_room (DoesNotExist "Game")
           eq_refl eq_refl eq_refl _) _) (db Sample.empty_rooms) eq_refl).
  - intros msg. discriminate.
  - simpl. intros p [].
Defined.

(** ** [CreateGameView.create_game] when the AI service fails *)

(** X10. [create_game] is not undone when the AI service fails.  The game row
    is written first; an exception of [generate_subtopics] or of
    [generate_questions] then goes out of [create_game] as it is, and the
    room is left with a new "waiting" game that has no question.  Questions
    and topics are untouched, and [generate_questions] is not called when
    [generate_subtopics] failed. *)
Theorem create_game_keeps_game_on_failure (E : Env) (room : Room) (topic_ : string)
    (n : option Z) (difficulty : option string) (st : State) (e : exn) :
  generate_subtopics E topic_ = Raise e \/
  (exists subs, generate_subtopics E topic_ = Return subs /\
                generate_questions E topic_ subs n difficulty = Raise e) ->
  exists st',
    CreateGameView.create_game E room topic_ n difficulty st = (Raise e, st') /\
    games (db st') =
      (games (db st) ++
       [{| game_id := next_id (map game_id (games (db st)));
           game_room := room_id room; game_status := "waiting" |}])%list /\
    questions (db st') = questions (db st) /\
    topics (db st') = topics (db st) /\
    (generate_subtopics E topic_ = Raise e ->
     calls st' = (calls st ++ [Call_generate_subtopics topic_])%list).
Proof.
  intros [Hsubs|(subs & Hsubs & Hqs)].
  - eexists. split.
    + unfold CreateGameView.create_game, Game_objects_acreate.
      unfold_monad. simpl. rewrite Hsubs. reflexivity.
    + simpl. repeat split.
  - eexists. split.
    + unfold CreateGameView.create_game, CreateGameView._fetch_and_create_questions,
        Game_objects_acreate.
      unfold_monad. simpl. rewrite Hsubs. simpl. rewrite Hqs. reflexivity.
    + simpl. repeat split. intros Hcontra. congruence.
Qed.

(** The host's room gets game 1 while the AI service is down. *)
Lemma create_game_keeps_game_on_failure_witness :
  exists st',
    CreateGameView.create_game Outage.ai_down Sample.open_room "maths" (Some 5)
      (Some "easy") Sample.empty_rooms =
      (Raise (OtherError "AI backend unavailable"), st') /\
    games (db st') = [{| game_id := 1; game_room := 1; game_status := "waiting" |}] /\
    questions (db st') = [] /\
    topics (db st') = [] /\
    (generate_subtopics Outage.ai_down "maths" =
       Raise (OtherError "AI backend unavailable") ->
     calls st' = [Call_generate_subtopics "maths"]).
Proof.
  apply (create_game_keeps_game_on_failure Outage.ai_down Sample.open_room "maths"
           (Some 5) (Some "easy") Sample.empty_rooms (OtherError "AI backend unavailable")).
  left. reflexivity.
Defined.

(** ** The topic behind the questions of a game *)

Lemma filter_map_comm {A} (p : A -> bool) (f : A -> A) (rows : list A) :
  (forall r, In r rows -> p (f r) = p r) ->
  filter p (map f rows) = map f (filter p rows).
Proof.
  induction rows as [|r l IH]; simpl; [reflexivity|].
  intros Hp. rewrite (Hp r (or_introl eq_refl)).
  destruct (p r); simpl; rewrite IH; auto.
Qed.

Lemma filter_singleton {A} (p : A -> bool) (rows : list A) (x : A) :
  (List.length (filter p rows) <= 1)%nat -> In x rows -> p x = true ->
  filter p rows = [x].
Proof.
  intros Hlen Hin Hp.
  assert (In x (filter p rows)) as Hf by (apply filter_In; auto).
  destruct (filter p rows) as [|y [|z l]]; simpl in *; [tauto | | lia].
  destruct Hf as [->|[]]. reflexivity.
Qed.

(** Saving a topic of the name over the stored row of its key: the saved
    topic is then the one topic of the name, and topics of other names are
    as they were. *)
Lemma save_named_topic (name : string) (ts : list Topic) (old saved : Topic) :
  topics_ok name ts ->
  In old ts ->
  topic_id saved = topic_id old ->
  topic_name old = name ->
  topic_name saved = name ->
  topics_ok name (save_row topic_id saved ts) /\
  filter (fun t => String.eqb (topic_name t) name) (save_row topic_id saved ts) = [saved] /\
  (forall t', topic_name t' <> name ->
     (In t' (save_row topic_id saved ts) <-> In t' ts)).
Proof.
  intros Hok Hin Hid Hold Hsaved.
  destruct (topics_ok_rewrite name ts old saved Hok Hin Hid Hold Hsaved) as [Hsave Hok'].
  split; [exact Hok'|]. destruct Hok as [Hnd Hone].
  assert (forall r, In r ts -> topic_id r = topic_id saved -> r = old) as Hkey.
  { intros r Hr Hk. apply (key_inj topic_id ts); [exact Hnd | exact Hr | exact Hin | lia]. }
  split.
  - rewrite Hsave, filter_map_comm.
    + rewrite (filter_singleton _ ts old Hone Hin); [|apply String.eqb_eq; exact Hold].
      simpl. rewrite Hid, Z.eqb_refl. reflexivity.
    + intros r Hr. destruct (topic_id r =? topic_id saved) eqn:Hk; [|reflexivity].
      rewrite (Hkey r Hr) by lia. rewrite Hold, Hsaved. reflexivity.
  - intros t' Hname. rewrite Hsave, in_map_iff. split.
    + intros (r & Hfr & Hr). destruct (topic_id r =? topic_id saved) eqn:Hk.
      * subst t'. contradiction.
      * subst r. exact Hr.
    + intros Ht'. exists t'. split; [|exact Ht'].
      destruct (topic_id t' =? topic_id saved) eqn:Hk; [|reflexivity].
      exfalso. apply Hname. rewrite (Hkey t' Ht') by lia. exact Hold.
Qed.

(** One run of [_get_or_create_topic]: the topic it returns, where it comes
    from and what it leaves in the table. *)
Lemma get_or_create_topic_run (E : Env) (topic_ : string) (subs : list string) (st : State) :
  topics_ok topic_ (topics (db st)) ->
  exists t st',
    CreateGameView._get_or_create_topic E topic_ subs st = (Return t, st') /\
    only_topics_differ st st' /\
    topics_ok topic_ (topics (db st')) /\
    filter (fun t => String.eqb (topic_name t) topic_) (topics (db st')) = [t] /\
    (forall t', topic_name t' <> topic_ ->
       (In t' (topics (db st')) <-> In t' (topics (db st)))) /\
    ((filter (fun t => String.eqb (topic_name t) topic_) (topics (db st)) = [] /\
      topic_subtopics t =
        (list_set E subs ++ list_set E (Topic_subtopics_default E))%list) \/
     (exists t0,
        filter (fun t => String.eqb (topic_name t) topic_) (topics (db st)) = [t0] /\
        topic_id t = topic_id t0 /\
        topic_subtopics t = (list_set E subs ++ list_set E (topic_subtopics t0))%list)).
Proof.
  intros Hok.
  unfold CreateGameView._get_or_create_topic, Topic_objects_aget_or_create, Topic_asave.
  unfold_monad. simpl.
  destruct (objects_get_cases "Topic"
              (fun t => String.eqb (topic_name t) topic_) (topics (db st)))
    as [[Hnone ->]|[(t0 & Hone & ->)|[Hmany _]]].
  - simpl.
    set (new := {| topic_id := next_id (map topic_id (topics (db st)));
                   topic_name := topic_;
                   topic_subtopics := Topic_subtopics_default E |}).
    set (saved := {| topic_id := topic_id new; topic_name := topic_name new;
                     topic_subtopics :=
                       (list_set E subs ++ list_set E (topic_subtopics new))%list |}).
    assert (topics_ok topic_ (topics (db st) ++ [new])) as Hok'.
    { destruct Hok as [Hnd _]. split.
      - rewrite map_app. simpl. apply NoDup_app; try apply NoDup_cons; auto using NoDup_nil.
        + intros x Hx [<-|[]]. apply (next_id_not_In _ Hx).
      - rewrite filter_app, Hnone. simpl. rewrite String.eqb_refl. simpl. lia. }
    destruct (save_named_topic topic_ (topics (db st) ++ [new]) new saved Hok')
      as (Hsaved & Hfilter & Hothers); try reflexivity.
    { apply in_or_app. right. left. reflexivity. }
    exists saved. eexists. split; [reflexivity|]. simpl.
    split; [repeat split|]. split; [exact Hsaved|]. split; [exact Hfilter|].
    split; [|left; split; [exact Hnone | reflexivity]].
    intros t' Hname. split.
    + intros Hin'. pose proof (proj1 (Hothers t' Hname) Hin') as Hin.
      apply in_app_or in Hin as [Hin|[<-|[]]]; [exact Hin|].
      contradiction Hname. reflexivity.
    + intros Hin. apply (proj2 (Hothers t' Hname)). apply in_or_app. left. exact Hin.
  - simpl.
    assert (In t0 (topics (db st)) /\ topic_name t0 = topic_) as [Hin Hname].
    { assert (In t0 (filter (fun t => String.eqb (topic_name t) topic_) (topics (db st))))
        as Hf by (rewrite Hone; left; reflexivity).
      apply filter_In in Hf as [Hin Hname]. apply String.eqb_eq in Hname. auto. }
    set (saved := {| topic_id := topic_id t0; topic_name := topic_name t0;
                     topic_subtopics :=
                       (list_set E subs ++ list_set E (topic_subtopics t0))%list |}).
    destruct (save_named_topic topic_ (topics (db st)) t0 saved Hok Hin)
      as (Hsaved & Hfilter & Hothers); try reflexivity; try exact Hname.
    exists saved. eexists. split; [reflexivity|]. simpl.
    split; [repeat split|]. split; [exact Hsaved|]. split; [exact Hfilter|].
    split; [exact Hothers|]. right. exists t0. auto.
  - destruct Hok as [_ Hle]. lia.
Qed.

Lemma count_occ_app_twice (l1 l2 : list string) (x : string) :
  In x l1 -> In x l2 -> (2 <= count_occ string_dec (l1 ++ l2) x)%nat.
Proof.
  intros H1 H2. rewrite count_occ_app.
  apply (count_occ_In string_dec) in H1. apply (count_occ_In string_dec) in H2. lia.
Qed.

(** X11. [_get_or_create_topic] merges subtopics without losing any, and
    without keeping them apart.  With [list(set(xs))] holding the elements of
    [xs], the topic it returns for a name that is on record keeps the key of
    the stored topic and lists exactly the requested subtopics and the ones
    stored before; a requested subtopic that was stored already is now listed
    at least twice.  The returned topic is the one topic of the name in the
    table, and topics of other names are as they were. *)
Theorem get_or_create_topic_merges (E : Env) (topic_ : string) (subs : list string)
    (st : State) (t0 : Topic) :
  topics_ok topic_ (topics (db st)) ->
  In t0 (topics (db st)) ->
  topic_name t0 = topic_ ->
  (forall xs x, In x (list_set E xs) <-> In x xs) ->
  exists t st',
    CreateGameView._get_or_create_topic E topic_ subs st = (Return t, st') /\
    filter (fun t => String.eqb (topic_name t) topic_) (topics (db st')) = [t] /\
    topic_id t = topic_id t0 /\
    (forall x, In x (topic_subtopics t) <-> In x subs \/ In x (topic_subtopics t0)) /\
    (forall x, In x subs -> In x (topic_subtopics t0) ->
               (2 <= count_occ string_dec (topic_subtopics t) x)%nat) /\
    (forall t', topic_name t' <> topic_ ->
       (In t' (topics (db st')) <-> In t' (topics (db st)))).
Proof.
  intros Hok Hin Hname Hset.
  destruct (get_or_create_topic_run E topic_ subs st Hok)
    as (t & st' & Hrun & _ & _ & Hfilter & Hothers & Hfrom).
  assert (filter (fun t => String.eqb (topic_name t) topic_) (topics (db st)) = [t0]) as Hone.
  { apply filter_singleton; [apply Hok | exact Hin | apply String.eqb_eq; exact Hname]. }
  destruct Hfrom as [[Hnone _]|(t1 & Hone' & Hid & Hsubs)]; [congruence|].
  assert (t1 = t0) as -> by congruence.
  exists t, st'. split; [exact Hrun|]. split; [exact Hfilter|]. split; [exact Hid|].
  rewrite Hsubs. split; [|split; [|exact Hothers]].
  - intros x. rewrite in_app_iff, !Hset. reflexivity.
  - intros x Hx Hx0. apply count_occ_app_twice; apply Hset; assumption.
Qed.

(** The topic maths, on record with algebra and sets, is asked for with
    algebra and primes: algebra is then listed twice. *)
Lemma get_or_create_topic_merges_witness :
  exists t st',
    CreateGameView._get_or_create_topic Sample.env "maths" ["algebra"; "primes"]
      Outage.topics_known = (Return t, st') /\
    topic_id t = 3 /\
    (2 <= count_occ string_dec (topic_subtopics t) "algebra")%nat.
Proof.
  destruct (get_or_create_topic_merges Sample.env "maths" ["algebra"; "primes"]
              Outage.topics_known Outage.maths)
    as (t & st' & Hrun & _ & Hid & _ & Htwice & _).
  - split; [|vm_compute; lia].
    simpl. repeat constructor; simpl; intuition discriminate.
  - left. reflexivity.
  - reflexivity.
  - intros xs x. apply nodup_In.
  - exists t, st'. split; [exact Hrun|]. split; [exact Hid|].
    apply Htwice; simpl; auto.
Defined.

(** The list comprehension of [_fetch_and_create_questions] again: the topic
    its instances link to and what the calls of [_get_or_create_topic] leave
    in the topics table. *)
Lemma question_instances_link (E : Env) (game : Game) (topic_ : string) (subs : list string)
    (qs : list GeneratedQuestion) (st : State) :
  topics_ok topic_ (topics (db st)) ->
  exists objs st',
    for_each
      (fun question =>
         topic' <- CreateGameView._get_or_create_topic E topic_ subs ;;
         ret (fun id =>
                {| question_id := id;
                   question_game := game_id game;
                   question_subtopic := gen_subtopic question;
                   question_question := gen_question question;
                   question_correct_answer := gen_answer question;
                   question_options := gen_options question;
                   question_topic := topic_id topic' |}))
      qs st = (Return objs, st') /\
    only_topics_differ st st' /\
    topics_ok topic_ (topics (db st')) /\
    (forall t', topic_name t' <> topic_ ->
       (In t' (topics (db st')) <-> In t' (topics (db st)))) /\
    (qs = [] -> st' = st) /\
    (qs <> [] ->
     exists t,
       filter (fun t => String.eqb (topic_name t) topic_) (topics (db st')) = [t] /\
       Forall (fun obj => forall id, question_topic (obj id) = topic_id t) objs /\
       (forall t0,
          filter (fun t => String.eqb (topic_name t) topic_) (topics (db st)) = [t0] ->
          topic_id t = topic_id t0) /\
       ((forall xs x, In x (list_set E xs) <-> In x xs) ->
        forall x, In x subs ->
          In x (topic_subtopics t) /\
          ((2 <= List.length qs)%nat \/
           (exists t0,
              filter (fun t => String.eqb (topic_name t) topic_) (topics (db st)) = [t0] /\
              In x (topic_subtopics t0)) ->
           (2 <= count_occ string_dec (topic_subtopics t) x)%nat))).
Proof.
  revert st. induction qs as [|q rest IH]; intros st Hok.
  - exists [], st. split; [reflexivity|]. split; [apply only_topics_differ_refl|].
    split; [exact Hok|]. split; [tauto|]. split; [reflexivity|]. intros Hne. contradiction.
  - destruct (get_or_create_topic_run E topic_ subs st Hok)
      as (t1 & st1 & Hrun1 & Hframe1 & Hok1 & Hfilter1 & Hothers1 & Hfrom1).
    destruct (IH st1 Hok1) as (objs & st2 & Hrest & Hframe2 & Hok2 & Hothers2 & Hnil & Hcons).
    assert (forall t0,
              filter (fun t => String.eqb (topic_name t) topic_) (topics (db st)) = [t0] ->
              topic_id t1 = topic_id t0) as Hid1.
    { intros t0 Hone. destruct Hfrom1 as [[Hnone _]|(t0' & Hone' & Hid & _)]; congruence. }
    assert ((forall xs x, In x (list_set E xs) <-> In x xs) ->
            forall x, In x subs ->
              In x (topic_subtopics t1) /\
              ((exists t0,
                  filter (fun t => String.eqb (topic_name t) topic_) (topics (db st)) = [t0] /\
                  In x (topic_subtopics t0)) ->
               (2 <= count_occ string_dec (topic_subtopics t1) x)%nat)) as Hsub1.
    { intros Hset x Hx. destruct Hfrom1 as [[Hnone Hs]|(t0' & Hone' & _ & Hs)]; rewrite Hs.
      - split; [apply in_or_app; left; apply Hset; exact Hx|].
        intros (t0 & Hone & _). congruence.
      - split; [apply in_or_app; left; apply Hset; exact Hx|].
        intros (t0 & Hone & Hx0). assert (t0' = t0) as -> by congruence.
        apply count_occ_app_twice; apply Hset; assumption. }
    eexists. exists st2. split.
    { cbn [for_each]. unfold bind in Hrest |- *.
      rewrite Hrun1. unfold ret at 1. rewrite Hrest. reflexivity. }
    split; [exact (only_topics_differ_trans _ _ _ Hframe1 Hframe2)|].
    split; [exact Hok2|].
    split; [intros t' Hname; rewrite (Hothers2 t' Hname); apply Hothers1; exact Hname|].
    split; [discriminate|]. intros _.
    destruct rest as [|q' rest'].
    + assert (st2 = st1) as -> by (apply Hnil; reflexivity).
      assert (objs = []) as ->.
      { cbn in Hrest. unfold ret in Hrest. congruence. }
      exists t1. split; [exact Hfilter1|].
      split; [constructor; [intros id; reflexivity | constructor]|].
      split; [exact Hid1|].
      intros Hset x Hx. destruct (Hsub1 Hset x Hx) as [Hin Htwice].
      split; [exact Hin|]. intros [Hlen|Hold]; [simpl in Hlen; lia | auto].
    + destruct Hcons as (t2 & Hfilter2 & Hlink2 & Hid2 & Hsub2); [discriminate|].
      pose proof (Hid2 t1 Hfilter1) as H21.
      exists t2. split; [exact Hfilter2|].
      split; [constructor; [intros id; simpl; congruence | exact Hlink2]|].
      split; [intros t0 Hone; rewrite H21; apply Hid1; exact Hone|].
      intros Hset x Hx. destruct (Hsub2 Hset x Hx) as [Hin Htwice].
      split; [exact Hin|]. intros _. apply Htwice. right.
      exists t1. split; [exact Hfilter1 | apply (Hsub1 Hset x Hx)].
Qed.

Lemma abulk_create_topics (objs : list (Z -> Question)) (st : State) :
  topics (db (snd (Question_objects_abulk_create objs st))) = topics (db st).
Proof.
  revert st. induction objs as [|obj rest IH]; intros st; [reflexivity|].
  cbn [Question_objects_abulk_create]. unfold bind at 1, get_db at 1.
  unfold bind at 1, put_db at 1. unfold bind at 1.
  match goal with
  | |- context [Question_objects_abulk_create rest ?s] =>
      specialize (IH s); destruct (Question_objects_abulk_create rest s) as [[rows|e] s']
  end; simpl in *; exact IH.
Qed.

(** A run of [create_game] that the AI service answers: the rows it adds and
    the topic behind them. *)
Lemma create_game_run (E : Env) (room : Room) (topic_ : string)
    (n : option Z) (difficulty : option string) (st : State)
    (subs : list string) (qs : list GeneratedQuestion) :
  generate_subtopics E topic_ = Return subs ->
  generate_questions E topic_ subs n difficulty = Return qs ->
  topics_ok topic_ (topics (db st)) ->
  exists rows st',
    CreateGameView.create_game E room topic_ n difficulty st =
      (Return (next_id (map game_id (games (db st)))), st') /\
    questions (db st') = (questions (db st) ++ rows)%list /\
    List.length rows = List.length qs /\
    (forall t', topic_name t' <> topic_ ->
       (In t' (topics (db st')) <-> In t' (topics (db st)))) /\
    (qs = [] -> topics (db st') = topics (db st)) /\
    (qs <> [] ->
     exists t,
       filter (fun t => String.eqb (topic_name t) topic_) (topics (db st')) = [t] /\
       Forall (fun row => question_topic row = topic_id t) rows /\
       (forall t0,
          filter (fun t => String.eqb (topic_name t) topic_) (topics (db st)) = [t0] ->
          topic_id t = topic_id t0) /\
       ((forall xs x, In x (list_set E xs) <-> In x xs) ->
        forall x, In x subs ->
          In x (topic_subtopics t) /\
          ((2 <= List.length qs)%nat ->
           (2 <= count_occ string_dec (topic_subtopics t) x)%nat))).
Proof.
  intros Hsubs Hqs Hok.
  unfold CreateGameView.create_game.
  unfold bind at 1, Game_objects_acreate at 1.
  unfold bind at 1, get_db at 1. unfold bind at 1, put_db at 1. unfold ret at 1.
  cbn [db calls].
  rewrite (bind_Return _ _ _ _ _ (log_run _ _)).
  unfold bind at 1, of_result at 1. rewrite Hsubs.
  set (game := {| game_id := next_id (map game_id (games (db st)));
                  game_room := room_id room; game_status := "waiting" |}).
  unfold CreateGameView._fetch_and_create_questions.
  unfold bind at 1. unfold bind at 1. rewrite log_run.
  unfold bind at 1, of_result at 1. rewrite Hqs.
  match goal with
  | |- context [bind (for_each ?f qs) _ ?s] =>
      destruct (question_instances_link E game topic_ subs qs s Hok)
        as (objs & st1 & Hobjs & (_ & _ & _ & Hq1 & _) & _ & Hothers & Hnil & Hcons);
      destruct (question_instances_ok E game topic_ subs qs s Hok)
        as (objs' & st1' & Hobjs' & _ & Hinst)
  end.
  assert (objs' = objs) as -> by congruence. clear Hobjs' st1'.
  rewrite (bind_Return _ _ _ _ _ Hobjs).
  destruct (abulk_create_ok objs st1) as (rows & st2 & Hbulk & Hq2 & _ & _ & Hrows).
  pose proof (abulk_create_topics objs st1) as Htopics. rewrite Hbulk in Htopics.
  rewrite Hbulk. cbn [db calls topics questions set_games snd] in *.
  exists rows, st2. split; [reflexivity|].
  split; [congruence|].
  split; [rewrite <- (Forall2_length Hrows); symmetry; exact (Forall2_length Hinst)|].
  rewrite Htopics.
  split; [exact Hothers|].
  split; [intros Hempty; rewrite (Hnil Hempty); reflexivity|].
  intros Hne. destruct (Hcons Hne) as (t & Hfilter & Hlink & Hid & Hsub).
  exists t. split; [exact Hfilter|]. split; [|split; [exact Hid|]].
  - clear - Hlink Hrows. induction Hrows as [|obj row objs' rows' [id ->] _ IH];
      [constructor|].
    inversion Hlink; subst. constructor; auto.
  - intros Hset x Hx. destruct (Hsub Hset x Hx) as [Hin Htwice].
    split; [exact Hin|]. intros Hlen. apply Htwice. left. exact Hlen.
Qed.

(** X12. All questions of a game hang on one topic.  When [create_game] runs
    with answers from the AI service for at least one question, the topics
    table ends with exactly one topic of the requested name and every
    question row written links to it; a topic of that name that was on
    record is reused under its key rather than doubled, and topics of other
    names are as they were. *)
Theorem create_game_links_one_topic (E : Env) (room : Room) (topic_ : string)
    (n : option Z) (difficulty : option string) (st : State)
    (subs : list string) (qs : list GeneratedQuestion) :
  generate_subtopics E topic_ = Return subs ->
  generate_questions E topic_ subs n difficulty = Return qs ->
  topics_ok topic_ (topics (db st)) ->
  qs <> [] ->
  exists rows st' t,
    CreateGameView.create_game E room topic_ n difficulty st =
      (Return (next_id (map game_id (games (db st)))), st') /\
    questions (db st') = (questions (db st) ++ rows)%list /\
    In t (topics (db st')) /\
    topic_name t = topic_ /\
    (forall t', In t' (topics (db st')) -> topic_name t' = topic_ -> t' = t) /\
    Forall (fun row => question_topic row = topic_id t) rows /\
    (forall t0, In t0 (topics (db st)) -> topic_name t0 = topic_ ->
                topic_id t = topic_id t0) /\
    (forall t', topic_name t' <> topic_ ->
       (In t' (topics (db st')) <-> In t' (topics (db st)))).
Proof.
  intros Hsubs Hqs Hok Hne.
  destruct (create_game_run E room topic_ n difficulty st subs qs Hsubs Hqs Hok)
    as (rows & st' & Hrun & Hq & _ & Hothers & _ & Hcons).
  destruct (Hcons Hne) as (t & Hfilter & Hlink & Hid & _).
  assert (forall t', In t' (topics (db st')) /\ topic_name t' = topic_ <-> t' = t) as Honly.
  { intros t'. rewrite <- (String.eqb_eq (topic_name t') topic_).
    rewrite <- (filter_In (fun t => String.eqb (topic_name t) topic_)), Hfilter.
    simpl. intuition congruence. }
  destruct (proj2 (Honly t) eq_refl) as [Hin Hname].
  exists rows, st', t. repeat split; try assumption.
  - intros t' Hin' Hname'. apply Honly. auto.
  - intros t0 Hin0 Hname0. apply Hid.
    apply filter_singleton; [apply Hok | exact Hin0 | apply String.eqb_eq; exact Hname0].
  - apply Hothers. assumption.
  - apply Hothers. assumption.
Qed.

(** A game about maths for the sample room, with maths and history on
    record: both questions link to topic 3, and history is as it was. *)
Lemma create_game_links_one_topic_witness :
  exists rows st' t,
    CreateGameView.create_game Sample.env Sample.open_room "maths" (Some 5) (Some "easy")
      Outage.topics_known = (Return 1, st') /\
    questions (db st') = rows /\
    topic_id t = 3 /\
    Forall (fun row => question_topic row = topic_id t) rows /\
    In Outage.history (topics (db st')).
Proof.
  destruct (create_game_links_one_topic Sample.env Sample.open_room "maths" (Some 5)
              (Some "easy") Outage.topics_known ["algebra"; "geometry"]
              (map (fun s => {| gen_subtopic := s;
                                gen_question := "Which statement about " ++ s ++ " is true?";
                                gen_answer := "A";
                                gen_options := ["A"; "B"; "C"; "D"] |})
                 ["algebra"; "geometry"]) eq_refl eq_refl)
    as (rows & st' & t & Hrun & Hq & _ & _ & _ & Hlink & Hid & Hothers).
  - split; [|vm_compute; lia].
    simpl. repeat constructor; simpl; intuition discriminate.
  - discriminate.
  - exists rows, st', t. split; [exact Hrun|]. split; [exact Hq|].
    split; [apply (Hid Outage.maths); [left; reflexivity | reflexivity]|].
    split; [exact Hlink|].
    apply Hothers; [discriminate | right; left; reflexivity].
Defined.

(** X13. An answer of the AI service with no question leaves a game without
    questions and makes no topic: [create_game] returns the key of the new
    "waiting" game, both calls to the AI service are on record, and the
    questions and topics tables are untouched, as the topic is only looked up
    once per question. *)
Theorem create_game_empty_answer (E : Env) (room : Room) (topic_ : string)
    (n : option Z) (difficulty : option string) (st : State) (subs : list string) :
  generate_subtopics E topic_ = Return subs ->
  generate_questions E topic_ subs n difficulty = Return [] ->
  CreateGameView.create_game E room topic_ n difficulty st =
  (Return (next_id (map game_id (games (db st)))),
   {| db := set_games
              (games (db st) ++
               [{| game_id := next_id (map game_id (games (db st)));
                   game_room := room_id room; game_status := "waiting" |}])
              (db st);
      calls := calls st ++ [Call_generate_subtopics topic_;
                            Call_generate_questions topic_ subs n difficulty] |}).
Proof.
  intros Hsubs Hqs.
  unfold CreateGameView.create_game, CreateGameView._fetch_and_create_questions,
    Game_objects_acreate.
  unfold_monad. simpl. rewrite Hsubs. simpl. rewrite Hqs. simpl.
  rewrite <- app_assoc. reflexivity.
Qed.

(** A game for the sample room from an AI service that finds no question. *)
Lemma create_game_empty_answer_witness :
  CreateGameView.create_game Outage.no_questions Sample.open_room "maths" (Some 5)
    (Some "easy") Sample.empty_rooms =
  (Return 1,
   {| db := set_games [{| game_id := 1; game_room := 1; game_status := "waiting" |}]
              (db Sample.empty_rooms);
      calls := [Call_generate_subtopics "maths";
                Call_generate_questions "maths" ["algebra"; "geometry"] (Some 5)
                  (Some "easy")] |}).
Proof.
  apply (create_game_empty_answer Outage.no_questions Sample.open_room "maths" (Some 5)
           (Some "easy") Sample.empty_rooms ["algebra"; "geometry"]); reflexivity.
Defined.

(** X14. [create_game] stores the generated subtopics more than once.  With
    [list(set(xs))] holding the elements of [xs], a run that gets two or more
    questions leaves the topic of the name listing every generated subtopic
    at least twice, also when the topic is new: [_get_or_create_topic] is
    called once per question and puts the subtopics in front of the list each
    time. *)
Theorem create_game_repeats_subtopics (E : Env) (room : Room) (topic_ : string)
    (n : option Z) (difficulty : option string) (st : State)
    (subs : list string) (qs : list GeneratedQuestion) :
  generate_subtopics E topic_ = Return subs ->
  generate_questions E topic_ subs n difficulty = Return qs ->
  topics_ok topic_ (topics (db st)) ->
  (forall xs x, In x (list_set E xs) <-> In x xs) ->
  (2 <= List.length qs)%nat ->
  exists st' t,
    CreateGameView.create_game E room topic_ n difficulty st =
      (Return (next_id (map game_id (games (db st)))), st') /\
    filter (fun t => String.eqb (topic_name t) topic_) (topics (db st')) = [t] /\
    (forall x, In x subs -> (2 <= count_occ string_dec (topic_subtopics t) x)%nat).
Proof.
  intros Hsubs Hqs Hok Hset Hlen.
  destruct (create_game_run E room topic_ n difficulty st subs qs Hsubs Hqs Hok)
    as (rows & st' & Hrun & _ & _ & _ & _ & Hcons).
  destruct Hcons as (t & Hfilter & _ & _ & Hsub).
  { intros ->. simpl in Hlen. lia. }
  exists st', t. split; [exact Hrun|]. split; [exact Hfilter|].
  intros x Hx. apply (Hsub Hset x Hx). exact Hlen.
Qed.

(** The first game about maths in the sample room: the new topic lists
    algebra twice. *)
Lemma create_game_repeats_subtopics_witness :
  exists st' t,
    CreateGameView.create_game Sample.env Sample.open_room "maths" (Some 5) (Some "easy")
      Sample.empty_rooms = (Return 1, st') /\
    filter (fun t => String.eqb (topic_name t) "maths") (topics (db st')) = [t] /\
    (2 <= count_occ string_dec (topic_subtopics t) "algebra")%nat.
Proof.
  destruct (create_game_repeats_subtopics Sample.env Sample.open_room "maths" (Some 5)
              (Some "easy") Sample.empty_rooms ["algebra"; "geometry"]
              (map (fun s => {| gen_subtopic := s;
                                gen_question := "Which statement about " ++ s ++ " is true?";
                                gen_answer := "A";
                                gen_options := ["A"; "B"; "C"; "D"] |})
                 ["algebra"; "geometry"]) eq_refl eq_refl)
    as (st' & t & Hrun & Hfilter & Htwice).
  - split; [constructor | simpl; lia].
  - intros xs x. apply nodup_In.
  - simpl. lia.
  - exists st', t. split; [exact Hrun|]. split; [exact Hfilter|].
    apply Htwice. left. reflexivity.
Defined.
